(** * CreatePeerConnectionTask: track-to-tile binding

    A shallow embedding of [src/task/CreatePeerConnectionTask.ts].  The
    task object and the collaborators it talks to (timers, presence feed,
    DOM event targets, tile registry, paused-stream tracker) are one
    explicit [State]; every method is a computation in a small
    state-and-exception monad; closures created by the task are
    defunctionalised into data ([Callback], [PresenceHandler],
    [Listener]) together with the functions that run them. *)

From stdpp Require Import gmap strings list fin_maps.
From Stdlib Require Import ZArith.

Open Scope string_scope.
Open Scope Z_scope.
Open Scope list_scope.
Open Scope stdpp_scope.

(** ** JavaScript values *)

(** The values that can sit in a capability field or travel in a presence
    event.  A settings view reports numbers, a capabilities view reports
    ranges; a field that was never populated reads [undefined]. *)
Inductive JsVal :=
| JsUndefined
| JsNull
| JsNum (n : Z)
| JsStr (s : string)
| JsRange (lo hi : Z).

#[global] Instance JsVal_eq_dec : EqDecision JsVal.
Proof. solve_decision. Defined.

(** [v !== null] *)
Definition strict_ne_null (v : JsVal) : bool :=
  match v with JsNull => false | _ => true end.

(** [v != null] (loose): neither null nor undefined. *)
Definition loose_ne_null (v : JsVal) : bool :=
  match v with JsNull | JsUndefined => false | _ => true end.

(** [typeof v]: always a string. *)
Definition typeof (v : JsVal) : JsVal :=
  match v with
  | JsUndefined => JsStr "undefined"
  | JsNull => JsStr "object"
  | JsNum _ => JsStr "number"
  | JsStr _ => JsStr "string"
  | JsRange _ _ => JsStr "object"
  end.

(** Truthiness, as used by [if (externalUserId)]. *)
Definition truthy (v : JsVal) : bool :=
  match v with
  | JsUndefined | JsNull => false
  | JsNum n => negb (Z.eqb n 0)
  | JsStr s => negb (String.eqb s "")
  | JsRange _ _ => true
  end.

(** Truthiness of a [number | null], as used by [if (tileState.streamId)]. *)
Definition truthy_num (v : option Z) : bool :=
  match v with
  | None => false
  | Some n => negb (Z.eqb n 0)
  end.

(** A capability snapshot, [MediaTrackCapabilities | MediaTrackSettings]. *)
Record CapObj := { width : JsVal; height : JsVal }.

(** The [trackCapability] field: declared without initialiser (so
    [undefined]), reset to [null] by [bindTile], then an object. *)
Inductive Capability :=
| CapUndefined
| CapNull
| CapObject (o : CapObj).

Inductive JsError :=
| TypeError (what : string).

(** ** Browser objects *)

Record Track := {
  track_id : string;
  kind : string;
  label : string;
  (** [track.getSettings] may be missing on old browsers *)
  getSettings : option CapObj;
  getCapabilities : CapObj
}.

Record MediaStream := {
  stream_id : string;
  (** ids of the video tracks, [stream.getVideoTracks()] *)
  getVideoTracks : list string
}.

(** An event target is a stream or a track, named by its id. *)
Inductive Target :=
| OnStream (id : string)
| OnTrack (id : string).

#[global] Instance Target_eq_dec : EqDecision Target.
Proof. solve_decision. Defined.

(** ** Tiles *)

Record VideoTileState := {
  tileId : nat;
  boundAttendeeId : option string;
  boundExternalUserId : JsVal;
  videoStreamContentWidth : JsVal;
  videoStreamContentHeight : JsVal;
  streamId : option Z;
  boundVideoStream : option string
}.

(** ** Closures as data *)

(** The arguments [bindTile] closes over in its retry function.  The track
    is an object shared with the browser: its snapshot is read from the
    store when the function runs (see [current_track]). *)
Record BindArgs := {
  ba_track : Track;
  ba_tile : nat;
  ba_attendeeId : string;
  ba_stream : MediaStream;
  ba_streamId : option Z;
  ba_trackId : string
}.

(** The presence handler of [bindExternalIdToRemoteTile]: what it closes
    over, including its own timeout scheduler. *)
Record PresenceHandler := {
  ph_tile : nat;
  ph_attendeeId : string;
  ph_stream : MediaStream;
  ph_width : JsVal;
  ph_height : JsVal;
  ph_streamId : option Z;
  ph_timeout : nat
}.

(** Timer callbacks. *)
Inductive Callback :=
| RetryCallback (a : BindArgs)      (* [() => { retryFunc(); }] *)
| PresenceTimeout (handler : nat).  (* the function given to [timeoutScheduler.start] *)

Record Timer := { timer_ms : Z; timer_cb : Callback }.

(** What an installed event listener does when its event fires. *)
Inductive ListenerBody :=
| LogTrackEvent (trackEvent : string) (tile : nat) (track : string) (streamId : option Z)
| TrackRemovedHandler (track : string) (tile : nat).

Record Listener := {
  l_target : Target;
  l_event : string;
  l_id : nat;
  l_body : ListenerBody
}.

(** [() => videoTrack.removeEventListener(trackEvent, callback)] *)
Record VideoTrackDisposer := {
  vd_videoTrack : string;
  vd_event : string;
  vd_callback : nat
}.

(** The function stored in [removeTrackRemovedEventListeners[track.id]]. *)
Record TrackRemovedDisposer := {
  td_target : Target;
  td_endEvent : string;
  td_handler : nat;
  td_trackId : string
}.

(** ** Observable effects *)

Inductive Effect :=
| LogInfo (msg : string)
| LogWarn (msg : string)
| LogDebug (msg : string)
| BindAudioStream (stream : option string)
| Subscribe (handler : nat)
| Unsubscribe (handler : nat)
| HandlerSetDelete (handler : nat)
| TimerStart (timer : nat) (ms : Z) (cb : Callback)
| TimerStop (timer : nat)
| BindVideoStream (tile : nat) (attendeeId : string) (w h : JsVal)
    (streamId : option Z) (externalUserId : JsVal)
| VideosPausedRemove (streamId : Z)
| RemoveVideoTile (tile : nat)
| RemoveTilesByAttendee (attendeeId : string) (removed : list nat)
| UnhandledRejection (e : JsError)   (* a rejected promise nobody awaits *)
| Uncaught (e : JsError).            (* an exception escaping a listener or timer *)

(** ** The session configuration and the read-only collaborators *)

Record Env := {
  requiresUnifiedPlan : bool;
  useTransceivers : bool;
  transceiverTrackIsVideoInput : string -> bool;
  (** ids of [activeVideoInput.getVideoTracks()], if there is an active input *)
  activeVideoInput : option (list string);
  attendeeIdForTrack : string -> string;
  (** [None] is [undefined] *)
  streamIdForTrack : string -> option Z;
  realtimeExternalUserIdFromAttendeeId : string -> JsVal;
  externalUserIdTimeoutMs : Z;
  (** the delay the backoff policy hands out on its n-th call *)
  backoffAmountMs : nat -> Z;
  (** id the browser gives to [new MediaStream([track])] *)
  newStreamId : string -> string
}.

(** ** State *)

Record State := {
  (* fields of the task *)
  removeTrackAddedEventListener : bool;   (* non-null? *)
  removeTrackRemovedEventListeners : gmap string TrackRemovedDisposer;
  presenceHandlerSet : list nat;
  removeVideoTrackEventListeners : gmap string (list VideoTrackDisposer);
  trackCapability : Capability;
  backoffPolicy : option nat;             (* [currentRetry] of the policy, once created *)
  backoffTimer : option nat;
  isContentWidthHeightSet : bool;
  (* collaborators *)
  nextId : nat;
  tracks : gmap string Track;
  timers : gmap nat Timer;
  handlers : gmap nat PresenceHandler;
  presenceSubscribers : list nat;
  peerTrackListener : bool;
  listeners : list Listener;
  tileStates : gmap nat VideoTileState;
  tileRegistry : list nat;
  videosPaused : list Z;
  trace : list Effect
}.

(** ** The monad: state threaded through, exceptions abort *)

Inductive Outcome (A : Type) :=
| Ret (a : A) (s : State)
| Throw (e : JsError) (s : State).
Arguments Ret {A} a s.
Arguments Throw {A} e s.

Definition M (A : Type) : Type := State -> Outcome A.

Definition ret {A} (a : A) : M A := fun s => Ret a s.
Definition throw {A} (e : JsError) : M A := fun s => Throw e s.
Definition bind {A B} (m : M A) (k : A -> M B) : M B :=
  fun s => match m s with
           | Ret a s' => k a s'
           | Throw e s' => Throw e s'
           end.
Definition gets {A} (f : State -> A) : M A := fun s => Ret (f s) s.
Definition modify (f : State -> State) : M unit := fun s => Ret tt (f s).

Declare Scope js_scope.
Delimit Scope js_scope with js.
Notation "x <- c1 ;; c2" := (bind c1 (fun x => c2))
  (at level 100, c1 at next level, right associativity) : js_scope.
Notation "c1 ;; c2" := (bind c1 (fun _ => c2))
  (at level 100, right associativity) : js_scope.
Open Scope js_scope.

Definition final_state {A} (o : Outcome A) : State :=
  match o with Ret _ s => s | Throw _ s => s end.

Definition returns {A} (o : Outcome A) : bool :=
  match o with Ret _ _ => true | Throw _ _ => false end.

(** [for (const x of xs) body(x)] *)
Fixpoint for_of {A} (xs : list A) (body : A -> M unit) : M unit :=
  match xs with
  | [] => ret tt
  | x :: rest => body x ;; for_of rest body
  end.

(** Field updates. *)

Definition upd_removeTrackAddedEventListener (f : bool -> bool) (s : State) : State :=
  {| removeTrackAddedEventListener := f (s.(removeTrackAddedEventListener));
     removeTrackRemovedEventListeners := s.(removeTrackRemovedEventListeners);
     presenceHandlerSet := s.(presenceHandlerSet);
     removeVideoTrackEventListeners := s.(removeVideoTrackEventListeners);
     trackCapability := s.(trackCapability); backoffPolicy := s.(backoffPolicy);
     backoffTimer := s.(backoffTimer);
     isContentWidthHeightSet := s.(isContentWidthHeightSet); nextId := s.(nextId);
     tracks := s.(tracks); timers := s.(timers); handlers := s.(handlers);
     presenceSubscribers := s.(presenceSubscribers);
     peerTrackListener := s.(peerTrackListener); listeners := s.(listeners);
     tileStates := s.(tileStates); tileRegistry := s.(tileRegistry);
     videosPaused := s.(videosPaused); trace := s.(trace) |}.

Definition upd_removeTrackRemovedEventListeners (f : gmap string TrackRemovedDisposer -> gmap string TrackRemovedDisposer) (s : State) : State :=
  {| removeTrackAddedEventListener := s.(removeTrackAddedEventListener);
     removeTrackRemovedEventListeners := f (s.(removeTrackRemovedEventListeners));
     presenceHandlerSet := s.(presenceHandlerSet);
     removeVideoTrackEventListeners := s.(removeVideoTrackEventListeners);
     trackCapability := s.(trackCapability); backoffPolicy := s.(backoffPolicy);
     backoffTimer := s.(backoffTimer);
     isContentWidthHeightSet := s.(isContentWidthHeightSet); nextId := s.(nextId);
     tracks := s.(tracks); timers := s.(timers); handlers := s.(handlers);
     presenceSubscribers := s.(presenceSubscribers);
     peerTrackListener := s.(peerTrackListener); listeners := s.(listeners);
     tileStates := s.(tileStates); tileRegistry := s.(tileRegistry);
     videosPaused := s.(videosPaused); trace := s.(trace) |}.

Definition upd_presenceHandlerSet (f : list nat -> list nat) (s : State) : State :=
  {| removeTrackAddedEventListener := s.(removeTrackAddedEventListener);
     removeTrackRemovedEventListeners := s.(removeTrackRemovedEventListeners);
     presenceHandlerSet := f (s.(presenceHandlerSet));
     removeVideoTrackEventListeners := s.(removeVideoTrackEventListeners);
     trackCapability := s.(trackCapability); backoffPolicy := s.(backoffPolicy);
     backoffTimer := s.(backoffTimer);
     isContentWidthHeightSet := s.(isContentWidthHeightSet); nextId := s.(nextId);
     tracks := s.(tracks); timers := s.(timers); handlers := s.(handlers);
     presenceSubscribers := s.(presenceSubscribers);
     peerTrackListener := s.(peerTrackListener); listeners := s.(listeners);
     tileStates := s.(tileStates); tileRegistry := s.(tileRegistry);
     videosPaused := s.(videosPaused); trace := s.(trace) |}.

Definition upd_removeVideoTrackEventListeners (f : gmap string (list VideoTrackDisposer) -> gmap string (list VideoTrackDisposer)) (s : State) : State :=
  {| removeTrackAddedEventListener := s.(removeTrackAddedEventListener);
     removeTrackRemovedEventListeners := s.(removeTrackRemovedEventListeners);
     presenceHandlerSet := s.(presenceHandlerSet);
     removeVideoTrackEventListeners := f (s.(removeVideoTrackEventListeners));
     trackCapability := s.(trackCapability); backoffPolicy := s.(backoffPolicy);
     backoffTimer := s.(backoffTimer);
     isContentWidthHeightSet := s.(isContentWidthHeightSet); nextId := s.(nextId);
     tracks := s.(tracks); timers := s.(timers); handlers := s.(handlers);
     presenceSubscribers := s.(presenceSubscribers);
     peerTrackListener := s.(peerTrackListener); listeners := s.(listeners);
     tileStates := s.(tileStates); tileRegistry := s.(tileRegistry);
     videosPaused := s.(videosPaused); trace := s.(trace) |}.

Definition upd_trackCapability (f : Capability -> Capability) (s : State) : State :=
  {| removeTrackAddedEventListener := s.(removeTrackAddedEventListener);
     removeTrackRemovedEventListeners := s.(removeTrackRemovedEventListeners);
     presenceHandlerSet := s.(presenceHandlerSet);
     removeVideoTrackEventListeners := s.(removeVideoTrackEventListeners);
     trackCapability := f (s.(trackCapability)); backoffPolicy := s.(backoffPolicy);
     backoffTimer := s.(backoffTimer);
     isContentWidthHeightSet := s.(isContentWidthHeightSet); nextId := s.(nextId);
     tracks := s.(tracks); timers := s.(timers); handlers := s.(handlers);
     presenceSubscribers := s.(presenceSubscribers);
     peerTrackListener := s.(peerTrackListener); listeners := s.(listeners);
     tileStates := s.(tileStates); tileRegistry := s.(tileRegistry);
     videosPaused := s.(videosPaused); trace := s.(trace) |}.

Definition upd_backoffPolicy (f : option nat -> option nat) (s : State) : State :=
  {| removeTrackAddedEventListener := s.(removeTrackAddedEventListener);
     removeTrackRemovedEventListeners := s.(removeTrackRemovedEventListeners);
     presenceHandlerSet := s.(presenceHandlerSet);
     removeVideoTrackEventListeners := s.(removeVideoTrackEventListeners);
     trackCapability := s.(trackCapability); backoffPolicy := f (s.(backoffPolicy));
     backoffTimer := s.(backoffTimer);
     isContentWidthHeightSet := s.(isContentWidthHeightSet); nextId := s.(nextId);
     tracks := s.(tracks); timers := s.(timers); handlers := s.(handlers);
     presenceSubscribers := s.(presenceSubscribers);
     peerTrackListener := s.(peerTrackListener); listeners := s.(listeners);
     tileStates := s.(tileStates); tileRegistry := s.(tileRegistry);
     videosPaused := s.(videosPaused); trace := s.(trace) |}.

Definition upd_backoffTimer (f : option nat -> option nat) (s : State) : State :=
  {| removeTrackAddedEventListener := s.(removeTrackAddedEventListener);
     removeTrackRemovedEventListeners := s.(removeTrackRemovedEventListeners);
     presenceHandlerSet := s.(presenceHandlerSet);
     removeVideoTrackEventListeners := s.(removeVideoTrackEventListeners);
     trackCapability := s.(trackCapability); backoffPolicy := s.(backoffPolicy);
     backoffTimer := f (s.(backoffTimer));
     isContentWidthHeightSet := s.(isContentWidthHeightSet); nextId := s.(nextId);
     tracks := s.(tracks); timers := s.(timers); handlers := s.(handlers);
     presenceSubscribers := s.(presenceSubscribers);
     peerTrackListener := s.(peerTrackListener); listeners := s.(listeners);
     tileStates := s.(tileStates); tileRegistry := s.(tileRegistry);
     videosPaused := s.(videosPaused); trace := s.(trace) |}.

Definition upd_isContentWidthHeightSet (f : bool -> bool) (s : State) : State :=
  {| removeTrackAddedEventListener := s.(removeTrackAddedEventListener);
     removeTrackRemovedEventListeners := s.(removeTrackRemovedEventListeners);
     presenceHandlerSet := s.(presenceHandlerSet);
     removeVideoTrackEventListeners := s.(removeVideoTrackEventListeners);
     trackCapability := s.(trackCapability); backoffPolicy := s.(backoffPolicy);
     backoffTimer := s.(backoffTimer);
     isContentWidthHeightSet := f (s.(isContentWidthHeightSet)); nextId := s.(nextId);
     tracks := s.(tracks); timers := s.(timers); handlers := s.(handlers);
     presenceSubscribers := s.(presenceSubscribers);
     peerTrackListener := s.(peerTrackListener); listeners := s.(listeners);
     tileStates := s.(tileStates); tileRegistry := s.(tileRegistry);
     videosPaused := s.(videosPaused); trace := s.(trace) |}.

Definition upd_nextId (f : nat -> nat) (s : State) : State :=
  {| removeTrackAddedEventListener := s.(removeTrackAddedEventListener);
     removeTrackRemovedEventListeners := s.(removeTrackRemovedEventListeners);
     presenceHandlerSet := s.(presenceHandlerSet);
     removeVideoTrackEventListeners := s.(removeVideoTrackEventListeners);
     trackCapability := s.(trackCapability); backoffPolicy := s.(backoffPolicy);
     backoffTimer := s.(backoffTimer);
     isContentWidthHeightSet := s.(isContentWidthHeightSet); nextId := f (s.(nextId));
     tracks := s.(tracks); timers := s.(timers); handlers := s.(handlers);
     presenceSubscribers := s.(presenceSubscribers);
     peerTrackListener := s.(peerTrackListener); listeners := s.(listeners);
     tileStates := s.(tileStates); tileRegistry := s.(tileRegistry);
     videosPaused := s.(videosPaused); trace := s.(trace) |}.

Definition upd_tracks (f : gmap string Track -> gmap string Track) (s : State) : State :=
  {| removeTrackAddedEventListener := s.(removeTrackAddedEventListener);
     removeTrackRemovedEventListeners := s.(removeTrackRemovedEventListeners);
     presenceHandlerSet := s.(presenceHandlerSet);
     removeVideoTrackEventListeners := s.(removeVideoTrackEventListeners);
     trackCapability := s.(trackCapability); backoffPolicy := s.(backoffPolicy);
     backoffTimer := s.(backoffTimer);
     isContentWidthHeightSet := s.(isContentWidthHeightSet); nextId := s.(nextId);
     tracks := f (s.(tracks)); timers := s.(timers); handlers := s.(handlers);
     presenceSubscribers := s.(presenceSubscribers);
     peerTrackListener := s.(peerTrackListener); listeners := s.(listeners);
     tileStates := s.(tileStates); tileRegistry := s.(tileRegistry);
     videosPaused := s.(videosPaused); trace := s.(trace) |}.

Definition upd_timers (f : gmap nat Timer -> gmap nat Timer) (s : State) : State :=
  {| removeTrackAddedEventListener := s.(removeTrackAddedEventListener);
     removeTrackRemovedEventListeners := s.(removeTrackRemovedEventListeners);
     presenceHandlerSet := s.(presenceHandlerSet);
     removeVideoTrackEventListeners := s.(removeVideoTrackEventListeners);
     trackCapability := s.(trackCapability); backoffPolicy := s.(backoffPolicy);
     backoffTimer := s.(backoffTimer);
     isContentWidthHeightSet := s.(isContentWidthHeightSet); nextId := s.(nextId);
     tracks := s.(tracks); timers := f (s.(timers)); handlers := s.(handlers);
     presenceSubscribers := s.(presenceSubscribers);
     peerTrackListener := s.(peerTrackListener); listeners := s.(listeners);
     tileStates := s.(tileStates); tileRegistry := s.(tileRegistry);
     videosPaused := s.(videosPaused); trace := s.(trace) |}.

Definition upd_handlers (f : gmap nat PresenceHandler -> gmap nat PresenceHandler) (s : State) : State :=
  {| removeTrackAddedEventListener := s.(removeTrackAddedEventListener);
     removeTrackRemovedEventListeners := s.(removeTrackRemovedEventListeners);
     presenceHandlerSet := s.(presenceHandlerSet);
     removeVideoTrackEventListeners := s.(removeVideoTrackEventListeners);
     trackCapability := s.(trackCapability); backoffPolicy := s.(backoffPolicy);
     backoffTimer := s.(backoffTimer);
     isContentWidthHeightSet := s.(isContentWidthHeightSet); nextId := s.(nextId);
     tracks := s.(tracks); timers := s.(timers); handlers := f (s.(handlers));
     presenceSubscribers := s.(presenceSubscribers);
     peerTrackListener := s.(peerTrackListener); listeners := s.(listeners);
     tileStates := s.(tileStates); tileRegistry := s.(tileRegistry);
     videosPaused := s.(videosPaused); trace := s.(trace) |}.

Definition upd_presenceSubscribers (f : list nat -> list nat) (s : State) : State :=
  {| removeTrackAddedEventListener := s.(removeTrackAddedEventListener);
     removeTrackRemovedEventListeners := s.(removeTrackRemovedEventListeners);
     presenceHandlerSet := s.(presenceHandlerSet);
     removeVideoTrackEventListeners := s.(removeVideoTrackEventListeners);
     trackCapability := s.(trackCapability); backoffPolicy := s.(backoffPolicy);
     backoffTimer := s.(backoffTimer);
     isContentWidthHeightSet := s.(isContentWidthHeightSet); nextId := s.(nextId);
     tracks := s.(tracks); timers := s.(timers); handlers := s.(handlers);
     presenceSubscribers := f (s.(presenceSubscribers));
     peerTrackListener := s.(peerTrackListener); listeners := s.(listeners);
     tileStates := s.(tileStates); tileRegistry := s.(tileRegistry);
     videosPaused := s.(videosPaused); trace := s.(trace) |}.

Definition upd_peerTrackListener (f : bool -> bool) (s : State) : State :=
  {| removeTrackAddedEventListener := s.(removeTrackAddedEventListener);
     removeTrackRemovedEventListeners := s.(removeTrackRemovedEventListeners);
     presenceHandlerSet := s.(presenceHandlerSet);
     removeVideoTrackEventListeners := s.(removeVideoTrackEventListeners);
     trackCapability := s.(trackCapability); backoffPolicy := s.(backoffPolicy);
     backoffTimer := s.(backoffTimer);
     isContentWidthHeightSet := s.(isContentWidthHeightSet); nextId := s.(nextId);
     tracks := s.(tracks); timers := s.(timers); handlers := s.(handlers);
     presenceSubscribers := s.(presenceSubscribers);
     peerTrackListener := f (s.(peerTrackListener)); listeners := s.(listeners);
     tileStates := s.(tileStates); tileRegistry := s.(tileRegistry);
     videosPaused := s.(videosPaused); trace := s.(trace) |}.

Definition upd_listeners (f : list Listener -> list Listener) (s : State) : State :=
  {| removeTrackAddedEventListener := s.(removeTrackAddedEventListener);
     removeTrackRemovedEventListeners := s.(removeTrackRemovedEventListeners);
     presenceHandlerSet := s.(presenceHandlerSet);
     removeVideoTrackEventListeners := s.(removeVideoTrackEventListeners);
     trackCapability := s.(trackCapability); backoffPolicy := s.(backoffPolicy);
     backoffTimer := s.(backoffTimer);
     isContentWidthHeightSet := s.(isContentWidthHeightSet); nextId := s.(nextId);
     tracks := s.(tracks); timers := s.(timers); handlers := s.(handlers);
     presenceSubscribers := s.(presenceSubscribers);
     peerTrackListener := s.(peerTrackListener); listeners := f (s.(listeners));
     tileStates := s.(tileStates); tileRegistry := s.(tileRegistry);
     videosPaused := s.(videosPaused); trace := s.(trace) |}.

Definition upd_tileStates (f : gmap nat VideoTileState -> gmap nat VideoTileState) (s : State) : State :=
  {| removeTrackAddedEventListener := s.(removeTrackAddedEventListener);
     removeTrackRemovedEventListeners := s.(removeTrackRemovedEventListeners);
     presenceHandlerSet := s.(presenceHandlerSet);
     removeVideoTrackEventListeners := s.(removeVideoTrackEventListeners);
     trackCapability := s.(trackCapability); backoffPolicy := s.(backoffPolicy);
     backoffTimer := s.(backoffTimer);
     isContentWidthHeightSet := s.(isContentWidthHeightSet); nextId := s.(nextId);
     tracks := s.(tracks); timers := s.(timers); handlers := s.(handlers);
     presenceSubscribers := s.(presenceSubscribers);
     peerTrackListener := s.(peerTrackListener); listeners := s.(listeners);
     tileStates := f (s.(tileStates)); tileRegistry := s.(tileRegistry);
     videosPaused := s.(videosPaused); trace := s.(trace) |}.

Definition upd_tileRegistry (f : list nat -> list nat) (s : State) : State :=
  {| removeTrackAddedEventListener := s.(removeTrackAddedEventListener);
     removeTrackRemovedEventListeners := s.(removeTrackRemovedEventListeners);
     presenceHandlerSet := s.(presenceHandlerSet);
     removeVideoTrackEventListeners := s.(removeVideoTrackEventListeners);
     trackCapability := s.(trackCapability); backoffPolicy := s.(backoffPolicy);
     backoffTimer := s.(backoffTimer);
     isContentWidthHeightSet := s.(isContentWidthHeightSet); nextId := s.(nextId);
     tracks := s.(tracks); timers := s.(timers); handlers := s.(handlers);
     presenceSubscribers := s.(presenceSubscribers);
     peerTrackListener := s.(peerTrackListener); listeners := s.(listeners);
     tileStates := s.(tileStates); tileRegistry := f (s.(tileRegistry));
     videosPaused := s.(videosPaused); trace := s.(trace) |}.

Definition upd_videosPaused (f : list Z -> list Z) (s : State) : State :=
  {| removeTrackAddedEventListener := s.(removeTrackAddedEventListener);
     removeTrackRemovedEventListeners := s.(removeTrackRemovedEventListeners);
     presenceHandlerSet := s.(presenceHandlerSet);
     removeVideoTrackEventListeners := s.(removeVideoTrackEventListeners);
     trackCapability := s.(trackCapability); backoffPolicy := s.(backoffPolicy);
     backoffTimer := s.(backoffTimer);
     isContentWidthHeightSet := s.(isContentWidthHeightSet); nextId := s.(nextId);
     tracks := s.(tracks); timers := s.(timers); handlers := s.(handlers);
     presenceSubscribers := s.(presenceSubscribers);
     peerTrackListener := s.(peerTrackListener); listeners := s.(listeners);
     tileStates := s.(tileStates); tileRegistry := s.(tileRegistry);
     videosPaused := f (s.(videosPaused)); trace := s.(trace) |}.

Definition upd_trace (f : list Effect -> list Effect) (s : State) : State :=
  {| removeTrackAddedEventListener := s.(removeTrackAddedEventListener);
     removeTrackRemovedEventListeners := s.(removeTrackRemovedEventListeners);
     presenceHandlerSet := s.(presenceHandlerSet);
     removeVideoTrackEventListeners := s.(removeVideoTrackEventListeners);
     trackCapability := s.(trackCapability); backoffPolicy := s.(backoffPolicy);
     backoffTimer := s.(backoffTimer);
     isContentWidthHeightSet := s.(isContentWidthHeightSet); nextId := s.(nextId);
     tracks := s.(tracks); timers := s.(timers); handlers := s.(handlers);
     presenceSubscribers := s.(presenceSubscribers);
     peerTrackListener := s.(peerTrackListener); listeners := s.(listeners);
     tileStates := s.(tileStates); tileRegistry := s.(tileRegistry);
     videosPaused := s.(videosPaused); trace := f (s.(trace)) |}.

Definition emit (e : Effect) : M unit := modify (upd_trace (fun t => t ++ [e])).

(** A fresh object identity (timer, closure, tile). *)
Definition fresh : M nat :=
  fun s => Ret (nextId s) (upd_nextId S s).

(** Reading a property of [this.trackCapability]: a [TypeError] when the
    snapshot is [null] or [undefined]. *)
Definition capability_prop (p : CapObj -> JsVal) : M JsVal :=
  c <- gets trackCapability ;;
  match c with
  | CapObject o => ret (p o)
  | CapNull => throw (TypeError "Cannot read properties of null")
  | CapUndefined => throw (TypeError "Cannot read properties of undefined")
  end.

Definition capability_ne_null (c : Capability) : bool :=
  match c with CapNull => false | _ => true end.

(** ** Collaborators that are not part of this file *)

(** Modelled from the spec: the one-shot timer behind [TimeoutScheduler]
    ([../scheduler/TimeoutScheduler]): [start] arms the timer with a
    callback, [stop] cancels it if it is still pending, and a timer that
    fires is no longer pending. *)
Definition scheduler_start (timer : nat) (ms : Z) (cb : Callback) : M unit :=
  modify (upd_timers (fun t => <[timer := {| timer_ms := ms; timer_cb := cb |}]> t)) ;;
  emit (TimerStart timer ms cb).

Definition scheduler_stop (timer : nat) : M unit :=
  modify (upd_timers (fun t => delete timer t)) ;;
  emit (TimerStop timer).

(** Modelled from the spec: the presence feed, [subscribe(handler)] and
    [unsubscribe(handler)] of the realtime controller. *)
Definition realtimeSubscribeToAttendeeIdPresence (h : nat) : M unit :=
  modify (upd_presenceSubscribers (fun l => l ++ [h])) ;;
  emit (Subscribe h).

Definition realtimeUnsubscribeToAttendeeIdPresence (h : nat) : M unit :=
  modify (upd_presenceSubscribers (fun l => filter (fun x => x ≠ h) l)) ;;
  emit (Unsubscribe h).

(** [this.presenceHandlerSet.add(handler)] / [.delete(handler)] *)
Definition presenceHandlerSet_add (h : nat) : M unit :=
  modify (upd_presenceHandlerSet
            (fun l => if decide (h ∈ l) then l else l ++ [h])).

Definition presenceHandlerSet_delete (h : nat) : M unit :=
  modify (upd_presenceHandlerSet (fun l => filter (fun x => x ≠ h) l)) ;;
  emit (HandlerSetDelete h).

(** Modelled from the spec: the backoff policy ([../backoff/FullJitterBackoff]);
    every call hands out a delay and advances the retry count, which is
    what widens the window. *)
Definition nextBackoffAmountMs (env : Env) : M Z :=
  p <- gets backoffPolicy ;;
  match p with
  | None => throw (TypeError "Cannot read properties of undefined")
  | Some n =>
      modify (upd_backoffPolicy (fun _ => Some (S n))) ;;
      ret (backoffAmountMs env n)
  end.

(** Modelled from the spec: the tile registry and its tiles
    ([addTile], [removeTile], [removeTilesByAttendeeId]) and the tile's
    [bindVideoStream] / [state]. *)
Definition new_tile_state (id : nat) : VideoTileState :=
  {| tileId := id; boundAttendeeId := None; boundExternalUserId := JsNull;
     videoStreamContentWidth := JsNull; videoStreamContentHeight := JsNull;
     streamId := None; boundVideoStream := None |}.

Definition tile_state (s : State) (tile : nat) : VideoTileState :=
  default (new_tile_state tile) (tileStates s !! tile).

Definition addVideoTile : M nat :=
  id <- fresh ;;
  modify (upd_tileStates (fun m => <[id := new_tile_state id]> m)) ;;
  modify (upd_tileRegistry (fun l => l ++ [id])) ;;
  ret id.

Definition removeVideoTile (id : nat) : M unit :=
  modify (upd_tileRegistry (fun l => filter (fun x => x ≠ id) l)) ;;
  emit (RemoveVideoTile id).

Definition tile_bound_to (s : State) (attendeeId : string) (id : nat) : Prop :=
  boundAttendeeId (tile_state s id) = Some attendeeId.

#[global] Instance tile_bound_to_dec s a id : Decision (tile_bound_to s a id).
Proof. unfold tile_bound_to. apply _. Defined.

Definition removeVideoTilesByAttendeeId (attendeeId : string) : M (list nat) :=
  fun s =>
    let removed := filter (tile_bound_to s attendeeId) (tileRegistry s) in
    (modify (upd_tileRegistry (fun l => filter (fun x => x ∉ removed) l)) ;;
     emit (RemoveTilesByAttendee attendeeId removed) ;;
     ret removed) s.

Definition bindVideoStream (tile : nat) (attendeeId : string) (stream : MediaStream)
    (w h : JsVal) (sid : option Z) (externalUserId : JsVal) : M unit :=
  modify (upd_tileStates (fun m =>
    <[tile := {| tileId := tile; boundAttendeeId := Some attendeeId;
                 boundExternalUserId := externalUserId;
                 videoStreamContentWidth := w; videoStreamContentHeight := h;
                 streamId := sid; boundVideoStream := Some (stream_id stream) |}]> m)) ;;
  emit (BindVideoStream tile attendeeId w h sid externalUserId).

(** Modelled from the spec: the paused-stream tracker, [remove(streamId)]. *)
Definition videosPaused_remove (sid : Z) : M unit :=
  modify (upd_videosPaused (fun l => filter (fun x => x ≠ sid) l)) ;;
  emit (VideosPausedRemove sid).

(** DOM event targets. *)
Definition addEventListener (l : Listener) : M unit :=
  modify (upd_listeners (fun ls => ls ++ [l])).

Definition same_listener (t : Target) (ev : string) (id : nat) (l : Listener) : Prop :=
  l_target l = t ∧ l_event l = ev ∧ l_id l = id.

#[global] Instance same_listener_dec t ev id l : Decision (same_listener t ev id l).
Proof. unfold same_listener. apply _. Defined.

Definition removeEventListener (t : Target) (ev : string) (id : nat) : M unit :=
  modify (upd_listeners (fun ls => filter (fun l => ¬ same_listener t ev id l) ls)).

(** The track object is shared with the browser, which fills in its
    settings as negotiation proceeds: the store holds its present
    contents; a track the store does not hold is as it was when captured. *)
Definition current_track (s : State) (t : Track) : Track :=
  default t (tracks s !! track_id t).

(** ** The task

    The [console.log] debugging prints of the source are kept only where
    evaluating their argument has an effect (a property read that can
    throw, a call that advances the backoff policy); log messages are
    recorded without their interpolated values. *)

Module Task.

Definition trackEvents : list string :=
  ["ended"; "mute"; "unmute"; "isolationchange"; "overconstrained"].

Definition REMOVE_HANDLER_INTERVAL_MS : Z := 10000.
Definition RECONNECT_FIXED_WAIT_MS : Z := 10.
Definition RECONNECT_SHORT_BACKOFF_MS : Z := 1 * 2000.
Definition RECONNECT_LONG_BACKOFF_MS : Z := 5 * 1000.

(** [isCapabilitySet()] *)
Definition isCapabilitySet : M bool :=
  c <- gets trackCapability ;;
  if capability_ne_null c then
    w <- capability_prop width ;;
    h <- capability_prop height ;;
    if strict_ne_null w && strict_ne_null (typeof h) then
      ret true
    else
      modify (upd_isContentWidthHeightSet (fun _ => false)) ;;
      ret false
  else
    (* console.log(' &&&&& 66666 222222' + this.trackCapability.width) *)
    _ <- capability_prop width ;;
    modify (upd_isContentWidthHeightSet (fun _ => false)) ;;
    ret false.

(** [retryWithBackoff(retryFunc)]; the retry function is the callback the
    timer will run. *)
Definition retryWithBackoff (env : Env) (retryFunc : Callback) : M bool :=
  flag <- gets isContentWidthHeightSet ;;
  let willRetry := negb flag in
  (if willRetry then
     (* console.log(... + this.backoffPolicy.nextBackoffAmountMs()) *)
     _ <- nextBackoffAmountMs env ;;
     ms <- nextBackoffAmountMs env ;;
     timer <- fresh ;;
     modify (upd_backoffTimer (fun _ => Some timer)) ;;
     scheduler_start timer ms retryFunc
   else ret tt) ;;
  ret willRetry.

(** [bindExternalIdToRemoteTile(tile, attendeeId, stream, width, height, streamId)] *)
Definition bindExternalIdToRemoteTile (env : Env) (tile : nat) (attendeeId : string)
    (stream : MediaStream) (w h : JsVal) (sid : option Z) : M unit :=
  timeoutScheduler <- fresh ;;
  handler <- fresh ;;
  modify (upd_handlers (fun m =>
    <[handler := {| ph_tile := tile; ph_attendeeId := attendeeId; ph_stream := stream;
                    ph_width := w; ph_height := h; ph_streamId := sid;
                    ph_timeout := timeoutScheduler |}]> m)) ;;
  realtimeSubscribeToAttendeeIdPresence handler ;;
  presenceHandlerSet_add handler ;;
  scheduler_start timeoutScheduler (externalUserIdTimeoutMs env) (PresenceTimeout handler).

(** The [handler] closure of [bindExternalIdToRemoteTile], called with a
    presence event. *)
Definition presenceHandler (handler : nat) (c : PresenceHandler)
    (presentAttendeeId : string) (present : bool) (externalUserId : JsVal) : M unit :=
  if bool_decide (ph_attendeeId c = presentAttendeeId) && present
     && strict_ne_null externalUserId then
    bindVideoStream (ph_tile c) (ph_attendeeId c) (ph_stream c) (ph_width c) (ph_height c)
      (ph_streamId c) externalUserId ;;
    realtimeUnsubscribeToAttendeeIdPresence handler ;;
    presenceHandlerSet_delete handler ;;
    scheduler_stop (ph_timeout c)
  else ret tt.

(** The function handed to [timeoutScheduler.start]. *)
Definition presenceTimeout (handler : nat) : M unit :=
  realtimeUnsubscribeToAttendeeIdPresence handler ;;
  presenceHandlerSet_delete handler.

(** The [async] function [bindTile] hands to [retryWithBackoff]. *)
Definition retryFunc (env : Env) (a : BindArgs) : M unit :=
  cur <- gets (fun s => current_track s (ba_track a)) ;;
  modify (upd_trackCapability (fun _ =>
    match getSettings cur with
    | Some o => CapObject o
    | None => CapObject (getCapabilities cur)
    end)) ;;
  modify (upd_isContentWidthHeightSet (fun _ => false)) ;;
  (* console.log(this.isCapabilitySet() + ...) *)
  _ <- isCapabilitySet ;;
  ready <- isCapabilitySet ;;
  if ready then
    let externalUserId := realtimeExternalUserIdFromAttendeeId env (ba_attendeeId a) in
    w <- capability_prop width ;;
    h <- capability_prop height ;;
    modify (upd_isContentWidthHeightSet (fun _ => true)) ;;
    (if truthy externalUserId then
       bindVideoStream (ba_tile a) (ba_attendeeId a) (ba_stream a) w h (ba_streamId a)
         externalUserId
     else
       bindExternalIdToRemoteTile env (ba_tile a) (ba_attendeeId a) (ba_stream a) w h
         (ba_streamId a)) ;;
    emit (LogInfo "video track added, created tile")
  else ret tt.

(** [bindTile(track, tile, attendeeId, stream, streamId, trackId)] *)
Definition bindTile (env : Env) (track : Track) (tile : nat) (attendeeId : string)
    (stream : MediaStream) (sid : option Z) (trackId : string) : M unit :=
  modify (upd_trackCapability (fun _ => CapNull)) ;;
  _ <- retryWithBackoff env
         (RetryCallback {| ba_track := track; ba_tile := tile;
                           ba_attendeeId := attendeeId; ba_stream := stream;
                           ba_streamId := sid; ba_trackId := trackId |}) ;;
  ret tt.

(** The function stored under [removeTrackRemovedEventListeners[track.id]]. *)
Definition run_trackRemovedDisposer (d : TrackRemovedDisposer) : M unit :=
  removeEventListener (td_target d) (td_endEvent d) (td_handler d) ;;
  modify (upd_removeTrackRemovedEventListeners (fun m => delete (td_trackId d) m)).

Definition run_videoTrackDisposer (d : VideoTrackDisposer) : M unit :=
  removeEventListener (OnTrack (vd_videoTrack d)) (vd_event d) (vd_callback d).

(** One round of the loop over [trackEvents] in [addRemoteVideoTrack]. *)
Definition addTrackEventListener (track : Track) (stream : MediaStream) (tile : nat)
    (sid : option Z) (trackEvent : string) : M unit :=
  match getVideoTracks stream with
  | [] => ret tt
  | videoTrack :: _ =>
      callback <- fresh ;;
      addEventListener {| l_target := OnTrack videoTrack; l_event := trackEvent;
                          l_id := callback;
                          l_body := LogTrackEvent trackEvent tile (track_id track) sid |} ;;
      modify (upd_removeVideoTrackEventListeners (fun m =>
        let old := default [] (m !! track_id track) in
        <[track_id track := old ++ [{| vd_videoTrack := videoTrack; vd_event := trackEvent;
                                       vd_callback := callback |}]]> m))
  end.

(** The loop over [trackEvents] in [addRemoteVideoTrack]. *)
Definition addTrackEventListeners (track : Track) (stream : MediaStream) (tile : nat)
    (sid : option Z) : M unit :=
  for_of trackEvents (addTrackEventListener track stream tile sid).

(** [addRemoteVideoTrack(track, stream)] *)
Definition addRemoteVideoTrack (env : Env) (track : Track) (stream0 : MediaStream) : M unit :=
  let unified := requiresUnifiedPlan env in
  let stream :=
    if unified then stream0
    else {| stream_id := newStreamId env (track_id track);
            getVideoTracks := if bool_decide (kind track = "video")
                              then [track_id track] else [] |} in
  let trackId := if unified then stream_id stream0 else track_id track in
  let attendeeId := attendeeIdForTrack env trackId in
  tilesRemoved <- removeVideoTilesByAttendeeId attendeeId ;;
  (match tilesRemoved with
   | [] => ret tt
   | _ => emit (LogInfo "removing existing tiles with same attendee id")
   end) ;;
  tile <- addVideoTile ;;
  (match streamIdForTrack env trackId with
   | None => emit (LogWarn "stream not found for tile")
   | Some _ => ret tt
   end) ;;
  let sid := streamIdForTrack env trackId in
  addTrackEventListeners track stream tile sid ;;
  modify (upd_backoffPolicy (fun _ => Some 0%nat)) ;;
  modify (upd_isContentWidthHeightSet (fun _ => false)) ;;
  bindTile env track tile attendeeId stream sid trackId ;;
  (if unified then ret tt
   else emit (LogDebug "updating end event and target track (plan-b)")) ;;
  let endEvent := if unified then "removetrack" else "ended" in
  let target := if unified then OnStream (stream_id stream) else OnTrack (track_id track) in
  trackRemovedHandler <- fresh ;;
  modify (upd_removeTrackRemovedEventListeners (fun m =>
    <[track_id track := {| td_target := target; td_endEvent := endEvent;
                           td_handler := trackRemovedHandler;
                           td_trackId := track_id track |}]> m)) ;;
  addEventListener {| l_target := target; l_event := endEvent; l_id := trackRemovedHandler;
                      l_body := TrackRemovedHandler (track_id track) tile |}.

(** [removeRemoteVideoTrack(track, tileState)]; only [track.id] is used. *)
Definition removeRemoteVideoTrack (trackId : string) (tileState : VideoTileState) : M unit :=
  d <- gets (fun s => removeTrackRemovedEventListeners s !! trackId) ;;
  match d with
  | None => throw (TypeError "this.removeTrackRemovedEventListeners[track.id] is not a function")
  | Some d =>
      run_trackRemovedDisposer d ;;
      ds <- gets (fun s => removeVideoTrackEventListeners s !! trackId) ;;
      match ds with
      | None => throw (TypeError "this.removeVideoTrackEventListeners[track.id] is not iterable")
      | Some ds =>
          for_of ds run_videoTrackDisposer ;;
          modify (upd_removeVideoTrackEventListeners (fun m => delete trackId m)) ;;
          emit (LogInfo "video track ended, removing tile") ;;
          (if truthy_num (streamId tileState) then
             match streamId tileState with
             | Some sid => videosPaused_remove sid
             | None => ret tt
             end
           else emit (LogWarn "no stream found for tile")) ;;
          removeVideoTile (tileId tileState)
      end
  end.

(** The two loops of [removeObserver()].  The first walks the keys of
    [removeTrackRemovedEventListeners] and calls what is stored there; a
    key deleted before the loop reaches it is not visited. *)
Definition releaseTrackRemovedListeners : M unit :=
  keys <- gets (fun s => (map_to_list (removeTrackRemovedEventListeners s)).*1) ;;
  for_of keys (fun trackId =>
    d <- gets (fun s => removeTrackRemovedEventListeners s !! trackId) ;;
    match d with
    | Some d => run_trackRemovedDisposer d
    | None => ret tt
    end).

Definition releasePresenceHandler (handler : nat) : M unit :=
  realtimeUnsubscribeToAttendeeIdPresence handler ;;
  presenceHandlerSet_delete handler.

Definition releasePresenceHandlers : M unit :=
  hs <- gets presenceHandlerSet ;;
  for_of hs releasePresenceHandler.

(** The function stored in [removeTrackAddedEventListener] by [run()]. *)
Definition releaseTrackAddedListener : M unit :=
  modify (upd_peerTrackListener (fun _ => false)) ;;
  modify (upd_removeTrackAddedEventListener (fun _ => false)).

(** [removeObserver()] *)
Definition removeObserver : M unit :=
  r <- gets removeTrackAddedEventListener ;;
  (if r then releaseTrackAddedListener else ret tt) ;;
  releaseTrackRemovedListeners ;;
  releasePresenceHandlers.

(** [trackIsVideoInput(track)] *)
Definition trackIsVideoInput (env : Env) (track : Track) : M bool :=
  if useTransceivers env then
    emit (LogDebug "getting video track type (unified-plan)") ;;
    ret (transceiverTrackIsVideoInput env (track_id track))
  else
    emit (LogDebug "getting video track type (plan-b)") ;;
    ret (match activeVideoInput env with
         | Some (first :: _) => bool_decide (first = track_id track)
         | _ => false
         end).

(** [trackAddedHandler(event)]; [stream] is [event.streams[0]], which is
    [undefined] when the event carries no stream. *)
Definition trackAddedHandler (env : Env) (track : Track) (stream : option MediaStream)
  : M unit :=
  emit (LogInfo "received track event") ;;
  if bool_decide (kind track = "audio") then
    emit (BindAudioStream (stream_id <$> stream))
  else if bool_decide (kind track = "video") then
    input <- trackIsVideoInput env track ;;
    if input then ret tt
    else match stream with
         | Some stream => addRemoteVideoTrack env track stream
         | None => throw (TypeError "Cannot read properties of undefined")
         end
  else ret tt.

(** The listener part of [run()]: the peer connection itself and its
    configuration are outside this model. *)
Definition run : M unit :=
  modify (upd_removeTrackAddedEventListener (fun _ => true)) ;;
  modify (upd_peerTrackListener (fun _ => true)).

End Task.

(** ** The event loop

    One turn of the loop runs one callback to completion.  An exception
    that escapes a listener or a timer callback is reported and the loop
    goes on; an exception inside an [async] function rejects its promise. *)

Definition uncaught (m : M unit) : M unit :=
  fun s => match m s with
           | Ret _ s' => Ret tt s'
           | Throw e s' => Ret tt (upd_trace (fun t => t ++ [Uncaught e]) s')
           end.

Definition async_call (m : M unit) : M unit :=
  fun s => match m s with
           | Ret _ s' => Ret tt s'
           | Throw e s' => Ret tt (upd_trace (fun t => t ++ [UnhandledRejection e]) s')
           end.

Definition run_callback (env : Env) (cb : Callback) : M unit :=
  match cb with
  | RetryCallback a => async_call (Task.retryFunc env a)
  | PresenceTimeout h => Task.presenceTimeout h
  end.

Definition run_listener (l : Listener) : M unit :=
  match l_body l with
  | LogTrackEvent _ _ _ _ => emit (LogInfo "received the track event for tile")
  | TrackRemovedHandler track tile =>
      st <- gets (fun s => tile_state s tile) ;;
      Task.removeRemoteVideoTrack track st
  end.

Definition listens_to (t : Target) (ev : string) (l : Listener) : Prop :=
  l_target l = t ∧ l_event l = ev.

#[global] Instance listens_to_dec t ev l : Decision (listens_to t ev l).
Proof. unfold listens_to. apply _. Defined.

Definition still_installed (l : Listener) (s : State) : bool :=
  bool_decide (Exists (same_listener (l_target l) (l_event l) (l_id l)) (listeners s)).

(** What the outside world can do to the task. *)
Inductive Input :=
| TrackEvent (track : Track) (stream : option MediaStream)
| TimerFires (timer : nat)
| Presence (attendeeId : string) (present : bool) (externalUserId : JsVal)
| Dispatch (target : Target) (event : string)
| TrackUpdated (track : Track)
| RemoveObserver.

Definition turn (env : Env) (i : Input) : M unit :=
  match i with
  | TrackEvent track stream =>
      listening <- gets peerTrackListener ;;
      if listening then
        modify (upd_tracks (fun m => <[track_id track := track]> m)) ;;
        uncaught (Task.trackAddedHandler env track stream)
      else ret tt
  | TimerFires timer =>
      t <- gets (fun s => timers s !! timer) ;;
      match t with
      | Some t =>
          modify (upd_timers (fun m => delete timer m)) ;;
          uncaught (run_callback env (timer_cb t))
      | None => ret tt
      end
  | Presence attendeeId present externalUserId =>
      subs <- gets presenceSubscribers ;;
      for_of subs (fun h =>
        live <- gets (fun s => bool_decide (h ∈ presenceSubscribers s)) ;;
        c <- gets (fun s => handlers s !! h) ;;
        match live, c with
        | true, Some c => uncaught (Task.presenceHandler h c attendeeId present externalUserId)
        | _, _ => ret tt
        end)
  | Dispatch target event =>
      ls <- gets (fun s => filter (listens_to target event) (listeners s)) ;;
      for_of ls (fun l =>
        live <- gets (still_installed l) ;;
        if live then uncaught (run_listener l) else ret tt)
  | TrackUpdated track =>
      modify (upd_tracks (fun m => <[track_id track := track]> m))
  | RemoveObserver => uncaught Task.removeObserver
  end.

Definition step (env : Env) (s : State) (i : Input) : State :=
  final_state (turn env i s).

Definition steps (env : Env) (s : State) (inputs : list Input) : State :=
  foldl (step env) s inputs.

(** The task right after construction. *)
Definition initial : State :=
  {| removeTrackAddedEventListener := false;
     removeTrackRemovedEventListeners := ∅;
     presenceHandlerSet := [];
     removeVideoTrackEventListeners := ∅;
     trackCapability := CapUndefined;
     backoffPolicy := None;
     backoffTimer := None;
     isContentWidthHeightSet := false;
     nextId := 0%nat;
     tracks := ∅;
     timers := ∅;
     handlers := ∅;
     presenceSubscribers := [];
     peerTrackListener := false;
     listeners := [];
     tileStates := ∅;
     tileRegistry := [];
     videosPaused := [];
     trace := [] |}.

(** ** Counting effects *)

Definition is_backoff_start (e : Effect) : bool :=
  match e with TimerStart _ _ (RetryCallback _) => true | _ => false end.

Definition is_unsubscribe (h : nat) (e : Effect) : bool :=
  match e with Unsubscribe h' => bool_decide (h' = h) | _ => false end.

Definition is_set_delete (h : nat) (e : Effect) : bool :=
  match e with HandlerSetDelete h' => bool_decide (h' = h) | _ => false end.

Definition is_bind (e : Effect) : bool :=
  match e with BindVideoStream _ _ _ _ _ _ => true | _ => false end.

Fixpoint count (p : Effect -> bool) (t : list Effect) : nat :=
  match t with
  | [] => 0
  | e :: t => (if p e then 1 else 0) + count p t
  end%nat.

(** A backoff timer that is armed and has not fired. *)
Definition is_retry_timer (t : Timer) : bool :=
  match timer_cb t with RetryCallback _ => true | PresenceTimeout _ => false end.

Definition pending_backoff (s : State) : list nat :=
  (filter (fun kv => Is_true (is_retry_timer kv.2)) (map_to_list (timers s))).*1.


(** * Vocabulary of the properties *)

(** What "both width and height are present and non-null" means. *)
Definition capability_complete (o : CapObj) : bool :=
  loose_ne_null (width o) && loose_ne_null (height o).

(** The snapshot a track reports right now: the settings view if the
    browser has one, else the capabilities view. *)
Definition snapshot (t : Track) : CapObj :=
  match getSettings t with
  | Some o => o
  | None => getCapabilities t
  end.

Definition with_capability (c : Capability) (s : State) : State :=
  upd_trackCapability (fun _ => c) s.

(** The condition under which the presence handler acts. *)
Definition presence_match (c : PresenceHandler) (attendeeId : string) (present : bool)
    (externalUserId : JsVal) : Prop :=
  ph_attendeeId c = attendeeId ∧ present = true ∧ externalUserId ≠ JsNull.

(** The tile state [bindVideoStream] leaves behind. *)
Definition bound_tile (tile : nat) (attendeeId : string) (stream : MediaStream)
    (w h : JsVal) (sid : option Z) (externalUserId : JsVal) : VideoTileState :=
  {| tileId := tile; boundAttendeeId := Some attendeeId;
     boundExternalUserId := externalUserId;
     videoStreamContentWidth := w; videoStreamContentHeight := h;
     streamId := sid; boundVideoStream := Some (stream_id stream) |}.

Definition installed (t : Target) (ev : string) (id : nat) (s : State) : Prop :=
  Exists (same_listener t ev id) (listeners s).

Definition is_paused_remove (e : Effect) : bool :=
  match e with VideosPausedRemove _ => true | _ => false end.

Definition is_warn (e : Effect) : bool :=
  match e with LogWarn _ => true | _ => false end.

Definition is_uncaught (e : Effect) : bool :=
  match e with Uncaught _ => true | _ => false end.

(** A computation that leaves a part of the state alone, and one that
    never throws. *)
Definition keeps {A B} (f : State -> A) (m : M B) : Prop :=
  ∀ s, f (final_state (m s)) = f s.

Definition total {B} (m : M B) : Prop :=
  ∀ s, returns (m s) = true.

(** A projection that does not see the updates of one field. *)
Definition ignores {A T} (f : State -> A) (upd : (T -> T) -> State -> State) : Prop :=
  ∀ g s, f (upd g s) = f s.

(** What the listeners of a target look like once the disposers [ds]
    have run. *)
Definition disposed (ds : list VideoTrackDisposer) (ls : list Listener) : list Listener :=
  foldl (fun ls d =>
           filter (fun l => ¬ same_listener (OnTrack (vd_videoTrack d)) (vd_event d)
                                (vd_callback d) l) ls) ls ds.

(** What releasing the presence handlers [hs] writes to the trace. *)
Definition released (hs : list nat) : list Effect :=
  flat_map (fun h => [Unsubscribe h; HandlerSetDelete h]) hs.

(** ** A session used in the examples *)

Module Scenario.

(** Unified plan; the identity directory does not know the attendee yet. *)
Definition env : Env :=
  {| requiresUnifiedPlan := true;
     useTransceivers := true;
     transceiverTrackIsVideoInput := fun _ => false;
     activeVideoInput := None;
     attendeeIdForTrack := fun _ => "a1";
     streamIdForTrack := fun _ => Some 7;
     realtimeExternalUserIdFromAttendeeId := fun _ => JsNull;
     externalUserIdTimeoutMs := Task.REMOVE_HANDLER_INTERVAL_MS;
     backoffAmountMs := fun n => Task.RECONNECT_FIXED_WAIT_MS + Z.of_nat n;
     newStreamId := fun t => t |}.

(** The same session with the external id of the attendee already known. *)
Definition env_known : Env :=
  {| requiresUnifiedPlan := true;
     useTransceivers := true;
     transceiverTrackIsVideoInput := fun _ => false;
     activeVideoInput := None;
     attendeeIdForTrack := fun _ => "a1";
     streamIdForTrack := fun _ => Some 7;
     realtimeExternalUserIdFromAttendeeId := fun _ => JsStr "ext-7";
     externalUserIdTimeoutMs := Task.REMOVE_HANDLER_INTERVAL_MS;
     backoffAmountMs := fun n => Task.RECONNECT_FIXED_WAIT_MS + Z.of_nat n;
     newStreamId := fun t => t |}.

(** The external id is known and the stream index files the track under
    stream id 0. *)
Definition env_stream0 : Env :=
  {| requiresUnifiedPlan := true;
     useTransceivers := true;
     transceiverTrackIsVideoInput := fun _ => false;
     activeVideoInput := None;
     attendeeIdForTrack := fun _ => "a1";
     streamIdForTrack := fun _ => Some 0;
     realtimeExternalUserIdFromAttendeeId := fun _ => JsStr "ext-7";
     externalUserIdTimeoutMs := Task.REMOVE_HANDLER_INTERVAL_MS;
     backoffAmountMs := fun n => Task.RECONNECT_FIXED_WAIT_MS + Z.of_nat n;
     newStreamId := fun t => t |}.

Definition no_dimensions : CapObj := {| width := JsUndefined; height := JsUndefined |}.
Definition hd_720 : CapObj := {| width := JsNum 1280; height := JsNum 720 |}.
Definition not_ready : CapObj := {| width := JsNull; height := JsNull |}.

Definition video (settings : CapObj) : Track :=
  {| track_id := "t1"; kind := "video"; label := "remote";
     getSettings := Some settings; getCapabilities := no_dimensions |}.

Definition stream : MediaStream := {| stream_id := "s1"; getVideoTracks := ["t1"] |}.
Definition stream_without_video : MediaStream :=
  {| stream_id := "s1"; getVideoTracks := [] |}.
Definition stream2 : MediaStream := {| stream_id := "s2"; getVideoTracks := ["t1"] |}.

(** The task after [run()]. *)
Definition started : State := final_state (Task.run initial).

(** A remote video track has just been added. *)
Definition added (settings : CapObj) : State :=
  step env started (TrackEvent (video settings) (Some stream)).

(** What the retry function of that track closes over. *)
Definition bind_args (settings : CapObj) : BindArgs :=
  {| ba_track := video settings; ba_tile := 0; ba_attendeeId := "a1";
     ba_stream := stream; ba_streamId := Some 7; ba_trackId := "s1" |}.

(** What that stored under [removeTrackRemovedEventListeners["t1"]]. *)
Definition disposer7 : TrackRemovedDisposer :=
  {| td_target := OnStream "s1"; td_endEvent := "removetrack"; td_handler := 7;
     td_trackId := "t1" |}.

(** The backoff timer armed by that (id 6) has fired, the attendee's
    identity was unknown, so a presence handler (id 9) is subscribed and
    its timeout (id 8) is armed. *)
Definition awaiting_presence : State := step env (added hd_720) (TimerFires 6).

(** The closure of that handler. *)
Definition handler9 : PresenceHandler :=
  {| ph_tile := 0; ph_attendeeId := "a1"; ph_stream := stream;
     ph_width := JsNum 1280; ph_height := JsNum 720; ph_streamId := Some 7;
     ph_timeout := 8 |}.

Definition handler_of (s : State) (h : nat) : option PresenceHandler := handlers s !! h.

Definition tile0 (sid : option Z) : VideoTileState :=
  {| tileId := 0; boundAttendeeId := Some "a1"; boundExternalUserId := JsStr "ext-7";
     videoStreamContentWidth := JsNum 1280; videoStreamContentHeight := JsNum 720;
     streamId := sid; boundVideoStream := Some "s1" |}.

End Scenario.

(** ** Vocabulary of the further properties *)

(** The state [s] with [es] appended to its trace and nothing else changed. *)
Definition logged (es : list Effect) (s : State) : State :=
  upd_trace (fun t => t ++ es) s.

(** The id under which [addRemoteVideoTrack] looks the track up in the
    stream index, and the stream the tile will be bound to. *)
Definition remote_trackId (env : Env) (track : Track) (stream : MediaStream) : string :=
  if requiresUnifiedPlan env then stream_id stream else track_id track.

Definition bound_stream (env : Env) (track : Track) (stream : MediaStream) : MediaStream :=
  if requiresUnifiedPlan env then stream
  else {| stream_id := newStreamId env (track_id track);
          getVideoTracks := if bool_decide (kind track = "video")
                            then [track_id track] else [] |}.

(** Every entry of [removeTrackRemovedEventListeners] deletes its own key. *)
Definition well_keyed (s : State) : Prop :=
  ∀ k d, removeTrackRemovedEventListeners s !! k = Some d → td_trackId d = k.

(** The handler set holds exactly the handlers subscribed to the feed. *)
Definition mirrors (s : State) : Prop :=
  ∀ h, h ∈ presenceHandlerSet s ↔ h ∈ presenceSubscribers s.

(** A computation that keeps a property of the state, whether it returns
    or throws. *)
Definition preserves {B} (P : State -> Prop) (m : M B) : Prop :=
  ∀ s, P s → P (final_state (m s)).

(** The three registries the task keeps about listeners and handlers that
    are still to be released. *)
Definition registries (s : State)
  : gmap string TrackRemovedDisposer * list nat * list nat :=
  (removeTrackRemovedEventListeners s, presenceHandlerSet s, presenceSubscribers s).



Definition is_subscribe (e : Effect) : bool :=
  match e with Subscribe _ => true | _ => false end.





(** The debug line [trackIsVideoInput] writes in each negotiation mode. *)
Definition video_input_probe (env : Env) : Effect :=
  if useTransceivers env then LogDebug "getting video track type (unified-plan)"
  else LogDebug "getting video track type (plan-b)".

(** The track is the video this client is sending: the transceiver
    controller says so, or, without transceivers, it is the first video
    track of the active video input. *)
Definition local_video_input (env : Env) (track : Track) : Prop :=
  if useTransceivers env then transceiverTrackIsVideoInput env (track_id track) = true
  else ∃ rest, activeVideoInput env = Some (track_id track :: rest).

(** ** Further objects for the examples *)

Module More.

Definition audio : Track :=
  {| track_id := "mic"; kind := "audio"; label := "remote audio";
     getSettings := None; getCapabilities := Scenario.no_dimensions |}.

Definition data : Track :=
  {| track_id := "d1"; kind := "data"; label := "";
     getSettings := None; getCapabilities := Scenario.no_dimensions |}.

Definition camera : Track :=
  {| track_id := "cam"; kind := "video"; label := "local camera";
     getSettings := Some Scenario.hd_720; getCapabilities := Scenario.no_dimensions |}.

(** Plan B, no transceivers; the camera is the active video input; the
    identity directory answers with the empty string. *)
Definition env_planb : Env :=
  {| requiresUnifiedPlan := false;
     useTransceivers := false;
     transceiverTrackIsVideoInput := fun _ => false;
     activeVideoInput := Some ["cam"];
     attendeeIdForTrack := fun _ => "a1";
     streamIdForTrack := fun _ => None;
     realtimeExternalUserIdFromAttendeeId := fun _ => JsStr "";
     externalUserIdTimeoutMs := Task.REMOVE_HANDLER_INTERVAL_MS;
     backoffAmountMs := fun n => Task.RECONNECT_FIXED_WAIT_MS + Z.of_nat n;
     newStreamId := fun t => t +:+ "-stream" |}.


End More.

(** * Properties *)

(** Run a computation symbolically. *)
Ltac run :=
  repeat (progress (unfold bind, gets, modify, ret, throw, emit, fresh, capability_prop;
                    cbn)).

Ltac run_with H :=
  repeat (progress (unfold bind, gets, modify, ret, throw, emit, fresh, capability_prop;
                    cbn; rewrite ?H)).

Create HintDb task discriminated.

(** ** Composition lemmas *)

Lemma final_bind {A B} (m : M A) (k : A -> M B) s :
  final_state (bind m k s) =
    match m s with
    | Ret a s' => final_state (k a s')
    | Throw _ s' => s'
    end.
Proof. unfold bind. by destruct (m s). Qed.

Lemma keeps_ret {A B} (f : State -> A) (b : B) : keeps f (ret b).
Proof. by intros s. Qed.

Lemma keeps_throw {A B} (f : State -> A) e : keeps f (@throw B e).
Proof. by intros s. Qed.

Lemma keeps_gets {A B} (f : State -> A) (g : State -> B) : keeps f (gets g).
Proof. by intros s. Qed.

Lemma keeps_bind {A B C} (f : State -> A) (m : M B) (k : B -> M C) :
  keeps f m → (∀ b, keeps f (k b)) → keeps f (bind m k).
Proof.
  intros Hm Hk s. rewrite final_bind. specialize (Hm s).
  destruct (m s) as [b s'|e s']; cbn in Hm; [|done].
  by rewrite Hk.
Qed.

Lemma keeps_for_of {A B} (f : State -> A) (xs : list B) (body : B -> M unit) :
  (∀ x, keeps f (body x)) → keeps f (for_of xs body).
Proof.
  intros Hb. induction xs as [|x xs IH]; cbn; [apply keeps_ret|].
  apply keeps_bind; auto.
Qed.

Lemma keeps_uncaught {A} (f : State -> A) (m : M unit) :
  ignores f upd_trace → keeps f m → keeps f (uncaught m).
Proof.
  intros Hf Hm s. unfold uncaught. specialize (Hm s).
  destruct (m s); cbn in *; [done|]. by rewrite Hf.
Qed.

Lemma total_ret {B} (b : B) : total (ret b).
Proof. by intros s. Qed.

Lemma total_gets {B} (g : State -> B) : total (gets g).
Proof. by intros s. Qed.

Lemma total_modify g : total (modify g).
Proof. by intros s. Qed.

Lemma total_bind {B C} (m : M B) (k : B -> M C) :
  total m → (∀ b, total (k b)) → total (bind m k).
Proof.
  intros Hm Hk s. unfold bind. specialize (Hm s).
  destruct (m s) as [b s'|e s']; cbn in Hm; [apply Hk|done].
Qed.

Lemma total_for_of {B} (xs : list B) (body : B -> M unit) :
  (∀ x, total (body x)) → total (for_of xs body).
Proof.
  intros Hb. induction xs as [|x xs IH]; cbn; [apply total_ret|].
  apply total_bind; auto.
Qed.

Lemma total_uncaught (m : M unit) : total (uncaught m).
Proof. intros s. unfold uncaught. by destruct (m s). Qed.

Lemma total_run {B} (m : M B) s : total m → ∃ b s', m s = Ret b s'.
Proof. intros Hm. specialize (Hm s). destruct (m s); [eauto|done]. Qed.

#[global] Hint Resolve keeps_ret keeps_throw keeps_gets keeps_bind keeps_for_of
  total_ret total_gets total_modify total_bind total_for_of total_uncaught : task.

Lemma count_app p t1 t2 : count p (t1 ++ t2) = (count p t1 + count p t2)%nat.
Proof. induction t1 as [|e t1 IH]; cbn; [done|]. rewrite IH. lia. Qed.

(** ** The readiness check *)

Lemma typeof_never_null v : strict_ne_null (typeof v) = true.
Proof. by destruct v. Qed.

(** On an object snapshot the check looks at the width only, and only
    for [null]. *)
Lemma isCapabilitySet_object s o :
  trackCapability s = CapObject o →
  Task.isCapabilitySet s =
    if strict_ne_null (width o) then Ret true s
    else Ret false (upd_isContentWidthHeightSet (fun _ => false) s).
Proof.
  intros Hc. unfold Task.isCapabilitySet. run_with Hc.
  rewrite typeof_never_null, andb_true_r.
  by destruct (strict_ne_null (width o)).
Qed.

Lemma isCapabilitySet_null s :
  trackCapability s = CapNull →
  Task.isCapabilitySet s = Throw (TypeError "Cannot read properties of null") s.
Proof. intros Hc. unfold Task.isCapabilitySet. by run_with Hc. Qed.

Lemma isCapabilitySet_undefined s :
  trackCapability s = CapUndefined →
  Task.isCapabilitySet s = Throw (TypeError "Cannot read properties of undefined") s.
Proof. intros Hc. unfold Task.isCapabilitySet. by run_with Hc. Qed.

Lemma bindTile_leaves_null env track tile attendeeId stream sid trackId s :
  trackCapability
    (final_state (Task.bindTile env track tile attendeeId stream sid trackId s)) = CapNull.
Proof.
  unfold Task.bindTile, Task.retryWithBackoff, nextBackoffAmountMs, scheduler_start. run.
  destruct (isContentWidthHeightSet s); run; [done|].
  destruct (backoffPolicy s); by run.
Qed.

(** C1.  The claim: [isCapabilitySet] answers true exactly when width and
    height are both present and non-null, and false whenever the height is
    null or undefined or the width is undefined.  The code answers true
    for every snapshot whose width is not [null], whatever the height: a
    snapshot with an undefined height, one with any height at all next to
    a width of 640 (so also a null height), and the empty snapshot, none
    of them complete, are all reported ready. *)
Theorem C1_incomplete_snapshots_reported_ready (s : State) (w h : JsVal) :
  let o1 := {| width := w; height := JsUndefined |} in
  let o2 := {| width := JsNum 640; height := h |} in
  let o3 := {| width := JsUndefined; height := JsUndefined |} in
  (capability_complete o1 = false
   ∧ Task.isCapabilitySet (with_capability (CapObject o1) s)
     = if strict_ne_null w then Ret true (with_capability (CapObject o1) s)
       else Ret false (upd_isContentWidthHeightSet (fun _ => false)
                         (with_capability (CapObject o1) s)))
  ∧ Task.isCapabilitySet (with_capability (CapObject o2) s)
    = Ret true (with_capability (CapObject o2) s)
  ∧ (capability_complete o3 = false
     ∧ Task.isCapabilitySet (with_capability (CapObject o3) s)
       = Ret true (with_capability (CapObject o3) s)).
Proof.
  cbn zeta. split; [split | split; [| split]].
  - unfold capability_complete. cbn. by rewrite andb_false_r.
  - by rewrite (isCapabilitySet_object _ {| width := w; height := JsUndefined |}).
  - by rewrite (isCapabilitySet_object _ {| width := JsNum 640; height := h |}).
  - reflexivity.
  - by rewrite (isCapabilitySet_object _ {| width := JsUndefined; height := JsUndefined |}).
Qed.

(** C10.  The claim: [isCapabilitySet] returns false, without raising, when
    the stored snapshot is [null].  In the code the branch taken for a
    [null] snapshot first prints [this.trackCapability.width], which
    throws: the call raises a [TypeError] in every state whose snapshot is
    [null], in particular in the state any call of [bindTile] leaves
    behind, and also right after construction, when the snapshot is still
    [undefined]. *)
Theorem C10_null_snapshot_raises (env : Env) (s : State) (track : Track) (tile : nat)
    (attendeeId : string) (stream : MediaStream) (sid : option Z) (trackId : string) :
  Task.isCapabilitySet (with_capability CapNull s)
    = Throw (TypeError "Cannot read properties of null") (with_capability CapNull s)
  ∧ returns (Task.isCapabilitySet
               (final_state (Task.bindTile env track tile attendeeId stream sid trackId s)))
    = false
  ∧ returns (Task.isCapabilitySet initial) = false.
Proof.
  split; [|split].
  - by apply isCapabilitySet_null.
  - by rewrite isCapabilitySet_null by apply bindTile_leaves_null.
  - reflexivity.
Qed.

(** ** Capability resolution *)

Ltac unfold_task :=
  unfold Task.retryFunc, Task.isCapabilitySet, Task.bindExternalIdToRemoteTile,
    Task.addRemoteVideoTrack, Task.bindTile, Task.retryWithBackoff,
    removeVideoTilesByAttendeeId, addVideoTile, nextBackoffAmountMs,
    addEventListener, bindVideoStream, realtimeSubscribeToAttendeeIdPresence,
    presenceHandlerSet_add, scheduler_start.

(** One attempt: what the retry function does when the timer runs it. *)
Lemma retryFunc_run env a s :
  let o := snapshot (current_track s (ba_track a)) in
  let ext := realtimeExternalUserIdFromAttendeeId env (ba_attendeeId a) in
  ∃ s', Task.retryFunc env a s = Ret tt s'
    ∧ trackCapability s' = CapObject o
    ∧ backoffTimer s' = backoffTimer s
    ∧ backoffPolicy s' = backoffPolicy s
    ∧ count is_backoff_start (trace s') = count is_backoff_start (trace s)
    ∧ (∀ timer t, timers s' !! timer = Some t → is_retry_timer t = true →
         timers s !! timer = Some t)
    ∧ (strict_ne_null (width o) = false →
         trace s' = trace s ∧ timers s' = timers s ∧ tileStates s' = tileStates s
         ∧ isContentWidthHeightSet s' = false)
    ∧ (strict_ne_null (width o) = true → truthy ext = true →
         isContentWidthHeightSet s' = true
         ∧ timers s' = timers s
         ∧ tileStates s' !! ba_tile a
           = Some (bound_tile (ba_tile a) (ba_attendeeId a) (ba_stream a)
                     (width o) (height o) (ba_streamId a) ext)
         ∧ count is_bind (trace s') = S (count is_bind (trace s)))
    ∧ (strict_ne_null (width o) = true → truthy ext = false →
         isContentWidthHeightSet s' = true
         ∧ tileStates s' = tileStates s
         ∧ count is_bind (trace s') = count is_bind (trace s)
         ∧ presenceSubscribers s' = presenceSubscribers s ++ [S (nextId s)]).
Proof.
  cbn zeta. unfold snapshot. unfold_task. run.
  destruct (getSettings (current_track s (ba_track a))) as [o|]; run.
  all: match goal with |- context [strict_ne_null (width ?o)] =>
         destruct (strict_ne_null (width o)) eqn:Hw end.
  all: repeat (rewrite ?typeof_never_null, ?andb_true_r, ?Hw; run).
  all: try destruct (truthy _) eqn:Ht; run.
  all: eexists; split; [reflexivity|]; cbn.
  all: rewrite ?count_app; cbn.
  all: repeat split; try done; try lia.
  all: try apply lookup_insert_eq.
  all: intros timer t; rewrite lookup_insert; case_decide; [|done].
  all: by intros [= <-].
Qed.


Lemma addTrackEventListeners_total track stream tile sid :
  total (Task.addTrackEventListeners track stream tile sid).
Proof.
  apply total_for_of. intros ev s. unfold Task.addTrackEventListener.
  by destruct (getVideoTracks stream).
Qed.

Lemma addTrackEventListeners_keeps {A} (f : State -> A) track stream tile sid :
  ignores f upd_nextId → ignores f upd_listeners →
  ignores f upd_removeVideoTrackEventListeners →
  keeps f (Task.addTrackEventListeners track stream tile sid).
Proof.
  intros H1 H2 H3. apply keeps_for_of. intros ev s. unfold Task.addTrackEventListener.
  destruct (getVideoTracks stream); [done|].
  unfold addEventListener. run. by rewrite H3, H2, H1.
Qed.

#[global] Arguments Task.addTrackEventListeners : simpl never.
#[global] Arguments Task.retryFunc : simpl never.




(** C3.  The claim: every unsuccessful attempt schedules a further attempt
    from the backoff policy, whose window grows.  In the code the retry
    function, once the timer runs it, never arms a backoff timer and never
    touches the policy, whatever the snapshot says: it always completes,
    no backoff timer is started or left pending that was not pending
    before, and when the width reads [null] the attempt leaves trace,
    timers and tiles exactly as they were, so nothing will ever look at
    the track again. *)
Theorem C3_attempt_never_schedules_a_retry (env : Env) (a : BindArgs) (s : State) :
  let s' := final_state (run_callback env (RetryCallback a) s) in
  returns (run_callback env (RetryCallback a) s) = true
  ∧ count is_backoff_start (trace s') = count is_backoff_start (trace s)
  ∧ backoffTimer s' = backoffTimer s
  ∧ backoffPolicy s' = backoffPolicy s
  ∧ (∀ timer t, timers s' !! timer = Some t → is_retry_timer t = true →
       timers s !! timer = Some t)
  ∧ (strict_ne_null (width (snapshot (current_track s (ba_track a)))) = false →
       trace s' = trace s ∧ timers s' = timers s ∧ tileStates s' = tileStates s).
Proof.
  cbn zeta. unfold run_callback, async_call.
  destruct (retryFunc_run env a s)
    as (s' & Hrun & _ & Hbt & Hbp & Hc & Hpending & Hnull & _).
  rewrite Hrun. cbn.
  do 5 (split; [done|]).
  intros Hw. by destruct (Hnull Hw) as (? & ? & ? & _).
Qed.



Lemma C3_attempt_never_schedules_a_retry_witness :
  let s := Scenario.added Scenario.not_ready in
  let a := Scenario.bind_args Scenario.not_ready in
  let s' := final_state (run_callback Scenario.env (RetryCallback a) s) in
  strict_ne_null (width (snapshot (current_track s (ba_track a)))) = false
  ∧ trace s' = trace s ∧ timers s' = timers s ∧ tileStates s' = tileStates s.
Proof.
  split; [reflexivity|].
  apply (C3_attempt_never_schedules_a_retry Scenario.env
           (Scenario.bind_args Scenario.not_ready) (Scenario.added Scenario.not_ready)).
  reflexivity.
Defined.

(** The failing run of C3: the width reads [null] when the only timer
    fires; afterwards no timer is pending, the tile is unbound, and the
    dimensions arriving later change nothing. *)
Example C3_failing_run :
  let s := steps Scenario.env Scenario.started
             [TrackEvent (Scenario.video Scenario.not_ready) (Some Scenario.stream);
              TimerFires 6;
              TrackUpdated (Scenario.video Scenario.hd_720)] in
  map_to_list (timers s) = [] ∧ count is_bind (trace s) = 0%nat
  ∧ count is_backoff_start (trace s) = 1%nat.
Proof. vm_compute. done. Qed.

(** The same run with the empty snapshot: the attempt counts as a success,
    the presence subscription is set up with undefined dimensions, and
    again no backoff timer is armed. *)
Example C3_failing_run_empty_snapshot :
  let s := steps Scenario.env Scenario.started
             [TrackEvent (Scenario.video Scenario.no_dimensions) (Some Scenario.stream);
              TimerFires 6] in
  pending_backoff s = [] ∧ count is_backoff_start (trace s) = 1%nat
  ∧ (ph_width <$> handlers s !! 9%nat) = Some JsUndefined.
Proof. vm_compute. done. Qed.

(** ** Teardown *)

Lemma keeps_modify {A T} (f : State -> A) (upd : (T -> T) -> State -> State) g :
  ignores f upd → keeps f (modify (upd g)).
Proof. intros H s. apply H. Qed.

Lemma keeps_emit {A} (f : State -> A) e : ignores f upd_trace → keeps f (emit e).
Proof. intros H. by apply keeps_modify. Qed.

#[global] Hint Resolve keeps_modify keeps_emit keeps_uncaught : task.

Lemma removeEventListener_keeps {A} (f : State -> A) t ev id :
  ignores f upd_listeners → keeps f (removeEventListener t ev id).
Proof. intros H. by apply keeps_modify. Qed.

Lemma run_trackRemovedDisposer_keeps {A} (f : State -> A) d :
  ignores f upd_listeners → ignores f upd_removeTrackRemovedEventListeners →
  keeps f (Task.run_trackRemovedDisposer d).
Proof.
  intros H1 H2. unfold Task.run_trackRemovedDisposer, removeEventListener.
  auto with task.
Qed.

Lemma run_videoTrackDisposer_keeps {A} (f : State -> A) d :
  ignores f upd_listeners → keeps f (Task.run_videoTrackDisposer d).
Proof. intros H. by apply removeEventListener_keeps. Qed.

(** What [removeRemoteVideoTrack] can touch: listeners, the two
    registries, the paused-stream tracker, the tile registry, the log. *)
Lemma removeRemoteVideoTrack_keeps {A} (f : State -> A) trackId ts :
  ignores f upd_listeners → ignores f upd_removeTrackRemovedEventListeners →
  ignores f upd_removeVideoTrackEventListeners → ignores f upd_videosPaused →
  ignores f upd_tileRegistry → ignores f upd_trace →
  keeps f (Task.removeRemoteVideoTrack trackId ts).
Proof.
  intros H1 H2 H3 H4 H5 H6. unfold Task.removeRemoteVideoTrack.
  apply keeps_bind; [apply keeps_gets|]. intros [d|]; [|apply keeps_throw].
  apply keeps_bind; [by apply run_trackRemovedDisposer_keeps|]. intros _.
  apply keeps_bind; [apply keeps_gets|]. intros [ds|]; [|apply keeps_throw].
  apply keeps_bind.
  { apply keeps_for_of. intros d'. by apply run_videoTrackDisposer_keeps. }
  intros _. apply keeps_bind; [by apply keeps_modify|]. intros _.
  apply keeps_bind; [by apply keeps_emit|]. intros _.
  apply keeps_bind.
  { destruct (truthy_num (streamId ts)); [|by apply keeps_emit].
    destruct (streamId ts); [|apply keeps_ret].
    unfold videosPaused_remove.
    apply keeps_bind; [by apply keeps_modify|]. intros _. by apply keeps_emit. }
  intros _. unfold removeVideoTile.
  apply keeps_bind; [by apply keeps_modify|]. intros _. by apply keeps_emit.
Qed.

Lemma releasePresenceHandler_keeps {A} (f : State -> A) h :
  ignores f upd_presenceSubscribers → ignores f upd_presenceHandlerSet →
  ignores f upd_trace → keeps f (Task.releasePresenceHandler h).
Proof.
  intros H1 H2 H3.
  unfold Task.releasePresenceHandler, realtimeUnsubscribeToAttendeeIdPresence,
    presenceHandlerSet_delete.
  auto 10 with task.
Qed.

Lemma releaseTrackRemovedListeners_keeps {A} (f : State -> A) :
  ignores f upd_listeners → ignores f upd_removeTrackRemovedEventListeners →
  keeps f Task.releaseTrackRemovedListeners.
Proof.
  intros H1 H2. unfold Task.releaseTrackRemovedListeners.
  apply keeps_bind; [apply keeps_gets|]. intros keys.
  apply keeps_for_of. intros k.
  apply keeps_bind; [apply keeps_gets|]. intros [d|]; [|apply keeps_ret].
  by apply run_trackRemovedDisposer_keeps.
Qed.

(** What [removeObserver] can touch: the peer's track listener, the end
    listeners and their registry, the presence subscriptions, the log. *)
Lemma removeObserver_keeps {A} (f : State -> A) :
  ignores f upd_peerTrackListener → ignores f upd_removeTrackAddedEventListener →
  ignores f upd_listeners → ignores f upd_removeTrackRemovedEventListeners →
  ignores f upd_presenceSubscribers → ignores f upd_presenceHandlerSet →
  ignores f upd_trace →
  keeps f Task.removeObserver.
Proof.
  intros H1 H2 H3 H4 H5 H6 H7. unfold Task.removeObserver.
  apply keeps_bind; [apply keeps_gets|]. intros r.
  apply keeps_bind.
  { destruct r; [|apply keeps_ret]. unfold Task.releaseTrackAddedListener.
    apply keeps_bind; [by apply keeps_modify|]. intros _. by apply keeps_modify. }
  intros _. apply keeps_bind; [by apply releaseTrackRemovedListeners_keeps|]. intros _.
  unfold Task.releasePresenceHandlers.
  apply keeps_bind; [apply keeps_gets|]. intros hs.
  apply keeps_for_of. intros h. by apply releasePresenceHandler_keeps.
Qed.

Lemma dispatch_keeps {A} (f : State -> A) env target ev :
  ignores f upd_listeners → ignores f upd_removeTrackRemovedEventListeners →
  ignores f upd_removeVideoTrackEventListeners → ignores f upd_videosPaused →
  ignores f upd_tileRegistry → ignores f upd_trace →
  keeps f (turn env (Dispatch target ev)).
Proof.
  intros H1 H2 H3 H4 H5 H6. cbn.
  apply keeps_bind; [apply keeps_gets|]. intros ls.
  apply keeps_for_of. intros l.
  apply keeps_bind; [apply keeps_gets|]. intros [|]; [|apply keeps_ret].
  apply keeps_uncaught; [done|]. unfold run_listener.
  destruct (l_body l); [by apply keeps_emit|].
  apply keeps_bind; [apply keeps_gets|]. intros st.
  by apply removeRemoteVideoTrack_keeps.
Qed.

(** C4 (as amended).  Teardown cancels no timer: whatever timers were
    pending before [removeRemoteVideoTrack], before the end event of a
    track is dispatched, or before [removeObserver], the backoff timer
    among them, are pending afterwards, and the task still points at the
    same backoff timer. *)
Theorem C4_teardown_leaves_timers_pending (env : Env) (s : State) (trackId : string)
    (tileState : VideoTileState) (target : Target) (endEvent : string) :
  (timers (final_state (Task.removeRemoteVideoTrack trackId tileState s)) = timers s
   ∧ backoffTimer (final_state (Task.removeRemoteVideoTrack trackId tileState s))
     = backoffTimer s)
  ∧ (timers (step env s (Dispatch target endEvent)) = timers s
     ∧ backoffTimer (step env s (Dispatch target endEvent)) = backoffTimer s)
  ∧ (timers (step env s RemoveObserver) = timers s
     ∧ backoffTimer (step env s RemoveObserver) = backoffTimer s).
Proof.
  repeat split.
  - by apply (removeRemoteVideoTrack_keeps timers).
  - by apply (removeRemoteVideoTrack_keeps backoffTimer).
  - by apply (dispatch_keeps timers).
  - by apply (dispatch_keeps backoffTimer).
  - apply (keeps_uncaught timers); [done|]. by apply removeObserver_keeps.
  - apply (keeps_uncaught backoffTimer); [done|]. by apply removeObserver_keeps.
Qed.

(** C4, as stated, fails: the backoff timer armed for a track is still
    pending after the track has ended and been removed, and after the
    whole session has been torn down. *)
Lemma C4_counterexample :
  let s := Scenario.added Scenario.hd_720 in
  pending_backoff s = [6%nat]
  ∧ pending_backoff (step Scenario.env s (Dispatch (OnStream "s1") "removetrack"))
    = [6%nat]
  ∧ count is_uncaught
      (trace (step Scenario.env s (Dispatch (OnStream "s1") "removetrack"))) = 0%nat
  ∧ tileRegistry (step Scenario.env s (Dispatch (OnStream "s1") "removetrack")) = []
  ∧ pending_backoff (step Scenario.env s RemoveObserver) = [6%nat].
Proof. vm_compute. done. Qed.

(** ** Presence subscriptions *)

Lemma not_elem_of_filter_ne (h : nat) (l : list nat) : h ∉ filter (fun x => x ≠ h) l.
Proof. by intros [Hne _]%list_elem_of_filter. Qed.

(** The handler on a matching and on a non-matching event. *)
Lemma presenceHandler_run handler c attendeeId present externalUserId s :
  (presence_match c attendeeId present externalUserId →
     ∃ s', Task.presenceHandler handler c attendeeId present externalUserId s = Ret tt s'
       ∧ tileStates s' !! ph_tile c
         = Some (bound_tile (ph_tile c) (ph_attendeeId c) (ph_stream c) (ph_width c)
                   (ph_height c) (ph_streamId c) externalUserId)
       ∧ presenceSubscribers s' = filter (fun x => x ≠ handler) (presenceSubscribers s)
       ∧ presenceHandlerSet s' = filter (fun x => x ≠ handler) (presenceHandlerSet s)
       ∧ timers s' = delete (ph_timeout c) (timers s)
       ∧ trace s' = trace s ++
           [BindVideoStream (ph_tile c) (ph_attendeeId c) (ph_width c) (ph_height c)
              (ph_streamId c) externalUserId;
            Unsubscribe handler; HandlerSetDelete handler; TimerStop (ph_timeout c)])
  ∧ (¬ presence_match c attendeeId present externalUserId →
       Task.presenceHandler handler c attendeeId present externalUserId s = Ret tt s).
Proof.
  unfold presence_match, Task.presenceHandler. split.
  - intros (-> & -> & Hext).
    rewrite bool_decide_eq_true_2 by done.
    assert (strict_ne_null externalUserId = true) as -> by (by destruct externalUserId).
    unfold bindVideoStream, realtimeUnsubscribeToAttendeeIdPresence,
      presenceHandlerSet_delete, scheduler_stop. run.
    eexists. split; [reflexivity|]. cbn.
    repeat split; try done.
    + apply lookup_insert_eq.
    + by rewrite <- !app_assoc.
  - intros Hno. destruct (bool_decide _) eqn:Hid; [|done].
    destruct present; [|done]. destruct externalUserId; try done; cbn.
    all: exfalso; apply Hno; by apply bool_decide_eq_true_1 in Hid.
Qed.



(** The same scenario through the event loop. *)
Example presence_scenario :
  Scenario.handler_of Scenario.awaiting_presence 9 = Some Scenario.handler9
  ∧ let s := step Scenario.env Scenario.awaiting_presence
               (Presence "a1" true (JsStr "u-42")) in
    tileStates s !! 0%nat
      = Some (bound_tile 0 "a1" Scenario.stream (JsNum 1280) (JsNum 720) (Some 7)
                (JsStr "u-42"))
    ∧ presenceSubscribers s = [] ∧ presenceHandlerSet s = []
    ∧ map_to_list (timers s) = []
    ∧ count (is_unsubscribe 9) (trace s) = 1%nat.
Proof. vm_compute. done. Qed.

Lemma filter_not_in_nil (l : list nat) : filter (fun x => x ∉ []) l = l.
Proof.
  induction l as [|x l IH]; [done|].
  rewrite filter_cons, IH. case_decide as Hx; [done|].
  contradict Hx. apply not_elem_of_nil.
Qed.

Lemma filter_not_in_cons (h : nat) (hs l : list nat) :
  filter (fun x => x ∉ hs) (filter (fun x => x ≠ h) l) = filter (fun x => x ∉ h :: hs) l.
Proof.
  rewrite list_filter_filter. apply list_filter_iff.
  intros x. rewrite not_elem_of_cons. tauto.
Qed.

Lemma filter_not_in_self (l : list nat) : filter (fun x => x ∉ l) l = [].
Proof. apply elem_of_nil_inv. by intros x [H1 H2]%list_elem_of_filter. Qed.

Lemma released_cons h hs :
  released (h :: hs) = [Unsubscribe h; HandlerSetDelete h] ++ released hs.
Proof. done. Qed.

Lemma count_unsubscribe_released (h : nat) (hs : list nat) :
  NoDup hs →
  count (is_unsubscribe h) (released hs) = if decide (h ∈ hs) then 1%nat else 0%nat.
Proof.
  induction 1 as [|x hs Hx Hnd IH]; [done|].
  rewrite released_cons, count_app, IH. cbn.
  destruct (decide (x = h)) as [->|Hne].
  - rewrite bool_decide_eq_true_2 by done.
    rewrite decide_False by done. rewrite decide_True by (by left). done.
  - rewrite bool_decide_eq_false_2 by done.
    destruct (decide (h ∈ hs)) as [Hin|Hnin].
    + rewrite decide_True by (by right). done.
    + rewrite decide_False; [done|]. intros [?|?]%elem_of_cons; congruence.
Qed.

(** The timeout callback. *)
Lemma presenceTimeout_run h s :
  ∃ s', Task.presenceTimeout h s = Ret tt s'
    ∧ presenceSubscribers s' = filter (fun x => x ≠ h) (presenceSubscribers s)
    ∧ presenceHandlerSet s' = filter (fun x => x ≠ h) (presenceHandlerSet s)
    ∧ timers s' = timers s
    ∧ trace s' = trace s ++ released [h].
Proof.
  unfold Task.presenceTimeout, realtimeUnsubscribeToAttendeeIdPresence,
    presenceHandlerSet_delete. run.
  eexists. split; [reflexivity|]. cbn. by rewrite <- app_assoc.
Qed.

(** The loop over the handler set in [removeObserver]. *)
Lemma releasePresenceHandlers_loop (hs : list nat) s :
  ∃ s', for_of hs Task.releasePresenceHandler s = Ret tt s'
    ∧ presenceSubscribers s' = filter (fun x => x ∉ hs) (presenceSubscribers s)
    ∧ presenceHandlerSet s' = filter (fun x => x ∉ hs) (presenceHandlerSet s)
    ∧ timers s' = timers s
    ∧ trace s' = trace s ++ released hs.
Proof.
  revert s. induction hs as [|h hs IH]; intros s.
  - exists s. rewrite !filter_not_in_nil, app_nil_r. done.
  - cbn [for_of]. unfold bind at 1.
    destruct (presenceTimeout_run h s) as (s1 & Hrun & Hsubs & Hset & Htimers & Htrace).
    change (Task.releasePresenceHandler h s) with (Task.presenceTimeout h s).
    rewrite Hrun.
    destruct (IH s1) as (s' & Hloop & Hsubs' & Hset' & Htimers' & Htrace').
    exists s'. split; [done|].
    rewrite Hsubs', Hset', Htimers', Htrace', Hsubs, Hset, Htimers, Htrace.
    rewrite !filter_not_in_cons, <- app_assoc. done.
Qed.

Lemma releaseTrackRemovedListeners_total : total Task.releaseTrackRemovedListeners.
Proof.
  unfold Task.releaseTrackRemovedListeners.
  apply total_bind; [apply total_gets|]. intros keys.
  apply total_for_of. intros k.
  apply total_bind; [apply total_gets|]. intros [d|]; [|apply total_ret].
  unfold Task.run_trackRemovedDisposer, removeEventListener. auto with task.
Qed.

#[global] Arguments Task.releaseTrackRemovedListeners : simpl never.

(** [removeObserver] as far as presence subscriptions are concerned. *)
Lemma removeObserver_run s :
  ∃ s', Task.removeObserver s = Ret tt s'
    ∧ presenceSubscribers s'
      = filter (fun x => x ∉ presenceHandlerSet s) (presenceSubscribers s)
    ∧ presenceHandlerSet s' = []
    ∧ timers s' = timers s
    ∧ trace s' = trace s ++ released (presenceHandlerSet s).
Proof.
  unfold Task.removeObserver, Task.releaseTrackAddedListener. run.
  assert (∀ s0, ∃ s1, Task.releaseTrackRemovedListeners s0 = Ret tt s1
            ∧ presenceSubscribers s1 = presenceSubscribers s0
            ∧ presenceHandlerSet s1 = presenceHandlerSet s0
            ∧ timers s1 = timers s0 ∧ trace s1 = trace s0) as Hfirst.
  { intros s0.
    destruct (total_run _ s0 releaseTrackRemovedListeners_total) as ([] & s1 & Heq).
    exists s1. split; [done|].
    pose proof (releaseTrackRemovedListeners_keeps presenceSubscribers
                  ltac:(done) ltac:(done) s0) as H1.
    pose proof (releaseTrackRemovedListeners_keeps presenceHandlerSet
                  ltac:(done) ltac:(done) s0) as H2.
    pose proof (releaseTrackRemovedListeners_keeps timers
                  ltac:(done) ltac:(done) s0) as H3.
    pose proof (releaseTrackRemovedListeners_keeps trace
                  ltac:(done) ltac:(done) s0) as H4.
    rewrite Heq in H1, H2, H3, H4. done. }
  destruct (removeTrackAddedEventListener s); run.
  all: match goal with
       | |- context [Task.releaseTrackRemovedListeners ?s0] =>
           destruct (Hfirst s0) as (s1 & -> & Hs & Hh & Ht & Htr)
       end.
  all: unfold Task.releasePresenceHandlers; run.
  all: destruct (releasePresenceHandlers_loop (presenceHandlerSet s1) s1)
         as (s' & -> & Hs' & Hh' & Ht' & Htr').
  all: exists s'; split; [done|].
  all: rewrite Hs', Hh', Ht', Htr', Hs, Hh, Ht, Htr, filter_not_in_self; done.
Qed.

#[global] Arguments Task.removeObserver : simpl never.

(** C5 (as amended).  For a presence subscription made by
    [bindExternalIdToRemoteTile]: a matching presence event and the expiry
    of the timeout each run the unsubscribe path once and leave the
    handler neither subscribed nor in the handler set, the match cancelling
    the timeout as well; [removeObserver] unsubscribes each handler that is
    still in the set once, none that has left it, and empties the set, but
    it leaves the timeouts armed; ending a track
    ([removeRemoteVideoTrack]) leaves subscriptions, handler set and
    timeouts as they are. *)
Theorem C5_unsubscribe_paths (handler : nat) (c : PresenceHandler) (attendeeId : string)
    (present : bool) (externalUserId : JsVal) (trackId : string)
    (tileState : VideoTileState) (s : State) :
  (presence_match c attendeeId present externalUserId →
     let s' := final_state
                 (Task.presenceHandler handler c attendeeId present externalUserId s) in
     count (is_unsubscribe handler) (trace s')
       = S (count (is_unsubscribe handler) (trace s))
     ∧ (handler ∉ presenceSubscribers s')
     ∧ (handler ∉ presenceHandlerSet s')
     ∧ timers s' !! ph_timeout c = None)
  ∧ (let s' := final_state (Task.presenceTimeout handler s) in
     count (is_unsubscribe handler) (trace s')
       = S (count (is_unsubscribe handler) (trace s))
     ∧ (handler ∉ presenceSubscribers s')
     ∧ (handler ∉ presenceHandlerSet s'))
  ∧ (NoDup (presenceHandlerSet s) →
     let s' := final_state (Task.removeObserver s) in
     returns (Task.removeObserver s) = true
     ∧ count (is_unsubscribe handler) (trace s')
       = (count (is_unsubscribe handler) (trace s)
          + if decide (handler ∈ presenceHandlerSet s) then 1 else 0)%nat
     ∧ presenceHandlerSet s' = []
     ∧ (∀ h, h ∈ presenceHandlerSet s → h ∉ presenceSubscribers s')
     ∧ timers s' = timers s)
  ∧ (let s' := final_state (Task.removeRemoteVideoTrack trackId tileState s) in
     presenceSubscribers s' = presenceSubscribers s
     ∧ presenceHandlerSet s' = presenceHandlerSet s
     ∧ timers s' = timers s).
Proof.
  split; [|split; [|split]].
  - intros Hm.
    destruct (presenceHandler_run handler c attendeeId present externalUserId s)
      as [Hmatch _].
    destruct (Hmatch Hm) as (s' & -> & _ & Hsubs & Hset & Htimers & Htrace). cbn.
    rewrite Hsubs, Hset, Htimers, Htrace, count_app. cbn.
    rewrite bool_decide_eq_true_2 by done.
    split; [lia|]. split; [apply not_elem_of_filter_ne|].
    split; [apply not_elem_of_filter_ne|apply lookup_delete_eq].
  - destruct (presenceTimeout_run handler s) as (s' & -> & Hsubs & Hset & _ & Htrace). cbn.
    rewrite Hsubs, Hset, Htrace, count_app. cbn.
    rewrite bool_decide_eq_true_2 by done.
    split; [lia|]. split; apply not_elem_of_filter_ne.
  - intros Hnd.
    destruct (removeObserver_run s) as (s' & -> & Hsubs & Hset & Htimers & Htrace). cbn.
    rewrite Hsubs, Hset, Htimers, Htrace, count_app, count_unsubscribe_released by done.
    repeat split; try done.
    intros h Hh [Hnot _]%list_elem_of_filter. done.
  - cbn zeta. repeat split; by apply removeRemoteVideoTrack_keeps.
Qed.

Lemma C5_unsubscribe_paths_witness :
  let s := Scenario.awaiting_presence in
  (presence_match Scenario.handler9 "a1" true (JsStr "ext-7")
   ∧ NoDup (presenceHandlerSet s))
  ∧ count (is_unsubscribe 9)
      (trace (final_state (Task.presenceHandler 9 Scenario.handler9 "a1" true
                             (JsStr "ext-7") s)))
    = S (count (is_unsubscribe 9) (trace s))
  ∧ presenceHandlerSet (final_state (Task.removeObserver s)) = [].
Proof.
  assert (presence_match Scenario.handler9 "a1" true (JsStr "ext-7")) as Hyes
    by (by unfold presence_match).
  assert (NoDup (presenceHandlerSet Scenario.awaiting_presence)) as Hnd
    by (vm_compute; apply NoDup_singleton).
  destruct (C5_unsubscribe_paths 9 Scenario.handler9 "a1" true (JsStr "ext-7") "t1"
              (Scenario.tile0 (Some 7)) Scenario.awaiting_presence)
    as (Hmatch & _ & Hobs & _).
  split; [by split|]. split.
  - exact (proj1 (Hmatch Hyes)).
  - exact (proj1 (proj2 (proj2 (Hobs Hnd)))).
Defined.

(** C5, as stated, fails.  After [removeObserver] has unsubscribed the
    handler, its timeout is still armed, and when it expires the handler is
    unsubscribed, and deleted from the handler set, a second time.  And
    after the track has ended and its tile is gone, the subscription and
    its timeout are still there. *)
Lemma C5_counterexample :
  let add := TrackEvent (Scenario.video Scenario.hd_720) (Some Scenario.stream) in
  let torn_down := steps Scenario.env Scenario.started
                     [add; TimerFires 6; RemoveObserver; TimerFires 8] in
  let ended := steps Scenario.env Scenario.started
                 [add; TimerFires 6; Dispatch (OnStream "s1") "removetrack"] in
  (count (is_unsubscribe 9) (trace torn_down) = 2%nat
   ∧ count (is_set_delete 9) (trace torn_down) = 2%nat)
  ∧ (tileRegistry ended = []
     ∧ presenceSubscribers ended = [9%nat]
     ∧ presenceHandlerSet ended = [9%nat]
     ∧ (timer_cb <$> timers ended !! 8%nat) = Some (PresenceTimeout 9)).
Proof. vm_compute. done. Qed.

(** ** Removing a track *)

Lemma run_videoTrackDisposers ds s :
  for_of ds Task.run_videoTrackDisposer s = Ret tt (upd_listeners (disposed ds) s).
Proof.
  revert s. induction ds as [|d ds IH]; intros s; [by destruct s|].
  cbn [for_of]. unfold bind at 1.
  unfold Task.run_videoTrackDisposer at 1, removeEventListener, modify.
  by rewrite IH.
Qed.



Lemma removeRemoteVideoTrack_not_iterable trackId ts d s :
  removeTrackRemovedEventListeners s !! trackId = Some d →
  removeVideoTrackEventListeners s !! trackId = None →
  ∃ s', Task.removeRemoteVideoTrack trackId ts s
          = Throw (TypeError "this.removeVideoTrackEventListeners[track.id] is not iterable") s'
    ∧ listeners s'
      = filter (fun l => ¬ same_listener (td_target d) (td_endEvent d) (td_handler d) l)
          (listeners s)
    ∧ removeTrackRemovedEventListeners s'
      = delete (td_trackId d) (removeTrackRemovedEventListeners s)
    ∧ removeVideoTrackEventListeners s' = removeVideoTrackEventListeners s
    ∧ tileRegistry s' = tileRegistry s
    ∧ videosPaused s' = videosPaused s
    ∧ trace s' = trace s.
Proof.
  intros H1 H2.
  unfold Task.removeRemoteVideoTrack, Task.run_trackRemovedDisposer, removeEventListener.
  run_with H1. rewrite H2. eexists. split; [reflexivity|]. done.
Qed.

Lemma removeRemoteVideoTrack_run trackId ts d ds s :
  removeTrackRemovedEventListeners s !! trackId = Some d →
  removeVideoTrackEventListeners s !! trackId = Some ds →
  ∃ s', Task.removeRemoteVideoTrack trackId ts s = Ret tt s'
    ∧ listeners s'
      = disposed ds
          (filter (fun l => ¬ same_listener (td_target d) (td_endEvent d) (td_handler d) l)
             (listeners s))
    ∧ removeTrackRemovedEventListeners s'
      = delete (td_trackId d) (removeTrackRemovedEventListeners s)
    ∧ removeVideoTrackEventListeners s'
      = delete trackId (removeVideoTrackEventListeners s)
    ∧ tileRegistry s' = filter (fun x => x ≠ tileId ts) (tileRegistry s)
    ∧ videosPaused s'
      = match streamId ts with
        | Some sid => if Z.eqb sid 0 then videosPaused s
                      else filter (fun x => x ≠ sid) (videosPaused s)
        | None => videosPaused s
        end
    ∧ trace s'
      = trace s ++ [LogInfo "video track ended, removing tile";
                    match streamId ts with
                    | Some sid => if Z.eqb sid 0 then LogWarn "no stream found for tile"
                                  else VideosPausedRemove sid
                    | None => LogWarn "no stream found for tile"
                    end;
                    RemoveVideoTile (tileId ts)].
Proof.
  intros H1 H2.
  unfold Task.removeRemoteVideoTrack, Task.run_trackRemovedDisposer, removeEventListener,
    removeVideoTile, videosPaused_remove.
  run_with H1. rewrite H2. rewrite run_videoTrackDisposers. run.
  destruct (streamId ts) as [sid|]; cbn; [destruct (Z.eqb sid 0); cbn|].
  all: eexists; split; [reflexivity|]; cbn.
  all: by rewrite <- ?app_assoc.
Qed.

#[global] Arguments Task.removeRemoteVideoTrack : simpl never.






(** Through the event loop the trigger does fire once only: a second end
    event finds no listener and changes nothing. *)
Example end_event_twice :
  let s := step Scenario.env (Scenario.added Scenario.hd_720)
             (Dispatch (OnStream "s1") "removetrack") in
  step Scenario.env s (Dispatch (OnStream "s1") "removetrack") = s.
Proof. by vm_compute. Qed.

(** The registry is keyed by [track.id] while the trigger sits on the
    stream: when the same track arrives under a second stream before the
    first has ended, the registry entry is overwritten, the first trigger
    is never taken off, and a second end event on the first stream reaches
    teardown again, which raises. *)
Example stale_trigger_fires_again :
  let s := steps Scenario.env Scenario.started
             [TrackEvent (Scenario.video Scenario.hd_720) (Some Scenario.stream);
              TrackEvent (Scenario.video Scenario.hd_720) (Some Scenario.stream2);
              Dispatch (OnStream "s1") "removetrack";
              Dispatch (OnStream "s1") "removetrack"] in
  last (trace s)
    = Some (Uncaught
              (TypeError "this.removeTrackRemovedEventListeners[track.id] is not a function"))
  ∧ l_id <$> listeners s = [7%nat].
Proof. by vm_compute. Qed.

Lemma addTrackEventListeners_skipped track stream tile sid s :
  getVideoTracks stream = [] →
  Task.addTrackEventListeners track stream tile sid s = Ret tt s.
Proof.
  intros Hv. unfold Task.addTrackEventListeners, Task.addTrackEventListener.
  by rewrite Hv.
Qed.

(** C8.  The claim: a track whose stream has no video sub-tracks goes
    through its whole lifecycle without an error, removal included.  In
    the code adding such a track skips the diagnostic listeners and so
    never creates the track's entry in [removeVideoTrackEventListeners];
    removal then iterates over [undefined] and raises a [TypeError] after
    releasing the end listener only: the tile stays in the registry, the
    paused-stream tracker is not told, and nothing is logged. *)
Theorem C8_removal_raises_without_video_subtracks (env : Env) (track : Track)
    (stream : MediaStream) (tileState : VideoTileState) (s : State) :
  requiresUnifiedPlan env = true →
  getVideoTracks stream = [] →
  removeVideoTrackEventListeners s !! track_id track = None →
  ∃ s1 s2,
    Task.addRemoteVideoTrack env track stream s = Ret tt s1
    ∧ listeners s1 = listeners s ++ [{| l_target := OnStream (stream_id stream);
                                        l_event := "removetrack"; l_id := S (S (nextId s));
                                        l_body := TrackRemovedHandler (track_id track)
                                                    (nextId s) |}]
    ∧ removeVideoTrackEventListeners s1 = removeVideoTrackEventListeners s
    ∧ Task.removeRemoteVideoTrack (track_id track) tileState s1
      = Throw (TypeError "this.removeVideoTrackEventListeners[track.id] is not iterable") s2
    ∧ tileRegistry s2 = tileRegistry s1
    ∧ (nextId s ∈ tileRegistry s2)
    ∧ videosPaused s2 = videosPaused s1
    ∧ trace s2 = trace s1.
Proof.
  intros Hu Hv Hnone.
  assert (∃ s1, Task.addRemoteVideoTrack env track stream s = Ret tt s1
            ∧ listeners s1 = listeners s ++
                [{| l_target := OnStream (stream_id stream);
                    l_event := "removetrack"; l_id := S (S (nextId s));
                    l_body := TrackRemovedHandler (track_id track) (nextId s) |}]
            ∧ removeVideoTrackEventListeners s1 = removeVideoTrackEventListeners s
            ∧ is_Some (removeTrackRemovedEventListeners s1 !! track_id track)
            ∧ (nextId s ∈ tileRegistry s1)) as (s1 & Hadd & Hl & Hreg & [d Hd] & Htile).
  { unfold_task. run. rewrite Hu.
    destruct (filter _ (tileRegistry s)) eqn:Hf;
      destruct (streamIdForTrack env _) eqn:Hs; run.
    all: rewrite addTrackEventListeners_skipped by done; run.
    all: eexists; split; [reflexivity|]; cbn.
    all: split; [done|]; split; [done|].
    all: split; [rewrite lookup_insert_eq; eauto|].
    all: apply elem_of_app; right; apply list_elem_of_singleton; done. }
  rewrite <- Hreg in Hnone.
  destruct (removeRemoteVideoTrack_not_iterable (track_id track) tileState d s1 Hd Hnone)
    as (s2 & Hrm & _ & _ & _ & Ht & Hp & Htr).
  exists s1, s2. rewrite Ht. done.
Qed.

Lemma C8_removal_raises_without_video_subtracks_witness :
  (requiresUnifiedPlan Scenario.env = true
   ∧ getVideoTracks Scenario.stream_without_video = []
   ∧ removeVideoTrackEventListeners Scenario.started !! "t1" = None)
  ∧ ∃ s1 s2,
      Task.addRemoteVideoTrack Scenario.env (Scenario.video Scenario.hd_720)
        Scenario.stream_without_video Scenario.started = Ret tt s1
      ∧ Task.removeRemoteVideoTrack "t1" (Scenario.tile0 (Some 7)) s1
        = Throw (TypeError "this.removeVideoTrackEventListeners[track.id] is not iterable")
            s2
      ∧ tileRegistry s2 = tileRegistry s1.
Proof.
  split; [done|].
  destruct (C8_removal_raises_without_video_subtracks Scenario.env
              (Scenario.video Scenario.hd_720) Scenario.stream_without_video
              (Scenario.tile0 (Some 7)) Scenario.started eq_refl eq_refl eq_refl)
    as (s1 & s2 & H1 & _ & _ & H2 & H3 & _).
  exists s1, s2. split; [exact H1|]. split; [exact H2|exact H3].
Defined.

(** The failing run of C8 through the event loop: the end event of the
    stream raises, and the tile is still registered afterwards. *)
Example C8_failing_run :
  let s := steps Scenario.env Scenario.started
             [TrackEvent (Scenario.video Scenario.hd_720)
                (Some Scenario.stream_without_video);
              Dispatch (OnStream "s1") "removetrack"] in
  last (trace s)
    = Some (Uncaught
              (TypeError "this.removeVideoTrackEventListeners[track.id] is not iterable"))
  ∧ tileRegistry s = [0%nat].
Proof. by vm_compute. Qed.

(** C9.  The claim: a known stream id, 0 included, is reported to the
    paused-stream tracker, and only an unknown one is met with a warning.
    The code tests [tileState.streamId] for truthiness, so the stream id 0
    goes down the branch of the unknown stream: the warning is logged, the
    tracker is not called and keeps the stream, and the tile is removed. *)
Theorem C9_stream_id_zero_taken_for_unknown (s : State) (trackId : string)
    (tileState : VideoTileState) (d : TrackRemovedDisposer)
    (ds : list VideoTrackDisposer) :
  removeTrackRemovedEventListeners s !! trackId = Some d →
  removeVideoTrackEventListeners s !! trackId = Some ds →
  streamId tileState = Some 0 →
  ∃ s', Task.removeRemoteVideoTrack trackId tileState s = Ret tt s'
    ∧ trace s' = trace s ++ [LogInfo "video track ended, removing tile";
                             LogWarn "no stream found for tile";
                             RemoveVideoTile (tileId tileState)]
    ∧ count is_paused_remove (trace s') = count is_paused_remove (trace s)
    ∧ videosPaused s' = videosPaused s
    ∧ (tileId tileState ∉ tileRegistry s').
Proof.
  intros Hd Hds Hzero.
  destruct (removeRemoteVideoTrack_run trackId tileState d ds s Hd Hds)
    as (s' & Hrun & _ & _ & _ & Htiles & Hpaused & Htrace).
  rewrite Hzero in Hpaused, Htrace. cbn in Hpaused, Htrace.
  exists s'. rewrite Htrace, Hpaused, Htiles, count_app. cbn.
  split; [done|]. split; [done|]. split; [lia|]. split; [done|].
  by intros [Hne _]%list_elem_of_filter.
Qed.

Lemma C9_stream_id_zero_taken_for_unknown_witness :
  let s := upd_videosPaused (fun _ => [0]) (Scenario.added Scenario.hd_720) in
  (removeTrackRemovedEventListeners s !! "t1" = Some Scenario.disposer7
   ∧ is_Some (removeVideoTrackEventListeners s !! "t1")
   ∧ streamId (Scenario.tile0 (Some 0)) = Some 0)
  ∧ ∃ s', Task.removeRemoteVideoTrack "t1" (Scenario.tile0 (Some 0)) s = Ret tt s'
      ∧ count is_paused_remove (trace s') = count is_paused_remove (trace s)
      ∧ videosPaused s' = [0].
Proof.
  cbn zeta.
  destruct (removeVideoTrackEventListeners
              (upd_videosPaused (fun _ => [0]) (Scenario.added Scenario.hd_720)) !! "t1")
    as [ds|] eqn:Hds; [|by vm_compute in Hds].
  assert (removeTrackRemovedEventListeners
            (upd_videosPaused (fun _ => [0]) (Scenario.added Scenario.hd_720)) !! "t1"
          = Some Scenario.disposer7) as Hd by (by vm_compute).
  split; [by repeat split|].
  destruct (C9_stream_id_zero_taken_for_unknown _ "t1" (Scenario.tile0 (Some 0))
              Scenario.disposer7 ds Hd Hds eq_refl) as (s' & H1 & _ & H2 & H3 & _).
  exists s'. split; [exact H1|]. split; [exact H2|exact H3].
Defined.

(** The failing run of C9 through the event loop: the stream index knows
    the track as stream 0, the tile is bound with it, stream 0 is paused;
    when the track ends the warning is logged and stream 0 stays in the
    paused set.  With stream 7 the tracker is told. *)
Example C9_failing_run :
  let run env paused :=
    steps env (upd_videosPaused (fun _ => [paused]) Scenario.started)
      [TrackEvent (Scenario.video Scenario.hd_720) (Some Scenario.stream);
       TimerFires 6;
       Dispatch (OnStream "s1") "removetrack"] in
  (streamId <$> tileStates (run Scenario.env_stream0 0) !! 0%nat) = Some (Some 0)
  ∧ videosPaused (run Scenario.env_stream0 0) = [0]
  ∧ count is_warn (trace (run Scenario.env_stream0 0)) = 1%nat
  ∧ count is_paused_remove (trace (run Scenario.env_stream0 0)) = 0%nat
  ∧ tileRegistry (run Scenario.env_stream0 0) = []
  ∧ videosPaused (run Scenario.env_known 7) = []
  ∧ count is_warn (trace (run Scenario.env_known 7)) = 0%nat.
Proof. by vm_compute. Qed.

(** * Further properties *)

(** ** Routing of track events *)

Lemma logged_logged es1 es2 s : logged es2 (logged es1 s) = logged (es1 ++ es2) s.
Proof. unfold logged, upd_trace. cbn. f_equal. by rewrite <- app_assoc. Qed.

(** An audio track is handed to the audio mixer with whatever stream the
    event carries, and a track that is neither audio nor video is only
    logged: in both cases no tile, timer, listener or registry entry is
    created. *)
Theorem non_video_track_creates_nothing (env : Env) (track : Track)
    (stream : option MediaStream) (s : State) :
  (kind track = "audio" →
     Task.trackAddedHandler env track stream s
       = Ret tt (logged [LogInfo "received track event";
                         BindAudioStream (stream_id <$> stream)] s))
  ∧ (kind track ≠ "audio" → kind track ≠ "video" →
       Task.trackAddedHandler env track stream s
         = Ret tt (logged [LogInfo "received track event"] s)).
Proof.
  unfold Task.trackAddedHandler. split.
  - intros Hk. rewrite bool_decide_eq_true_2 by done. run.
    unfold logged, upd_trace. cbn. do 2 f_equal. by rewrite <- app_assoc.
  - intros Ha Hv. rewrite !bool_decide_eq_false_2 by done. by run.
Qed.

Lemma non_video_track_creates_nothing_witness :
  Task.trackAddedHandler Scenario.env More.audio None Scenario.started
    = Ret tt (logged [LogInfo "received track event"; BindAudioStream None]
                Scenario.started)
  ∧ Task.trackAddedHandler Scenario.env More.data (Some Scenario.stream)
      Scenario.started
    = Ret tt (logged [LogInfo "received track event"] Scenario.started).
Proof.
  split.
  - exact (proj1 (non_video_track_creates_nothing Scenario.env More.audio None
                    Scenario.started) eq_refl).
  - apply (proj2 (non_video_track_creates_nothing Scenario.env More.data
                    (Some Scenario.stream) Scenario.started)); by intros [=].
Defined.

(** A video track that is the client's own outgoing video is dropped after
    the two log lines; any other video track is handed to
    [addRemoteVideoTrack] with the first stream of the event; and when the
    event carries no stream, reading [stream.id] raises before anything is
    created, in Plan B too, where the stream would be replaced anyway. *)
Theorem video_track_routing (env : Env) (track : Track) (s : State) :
  kind track = "video" →
  let s0 := logged [LogInfo "received track event"; video_input_probe env] s in
  (local_video_input env track →
     ∀ stream, Task.trackAddedHandler env track stream s = Ret tt s0)
  ∧ (¬ local_video_input env track →
       (∀ stream, Task.trackAddedHandler env track (Some stream) s
                  = Task.addRemoteVideoTrack env track stream s0)
       ∧ Task.trackAddedHandler env track None s
         = Throw (TypeError "Cannot read properties of undefined") s0).
Proof.
  intros Hk. cbn zeta.
  assert (kind track ≠ "audio") as Ha by (rewrite Hk; by intros [=]).
  unfold Task.trackAddedHandler, Task.trackIsVideoInput, local_video_input,
    video_input_probe.
  rewrite bool_decide_eq_false_2, bool_decide_eq_true_2 by done.
  change (logged [LogInfo "received track event"; ?e] s)
    with (logged ([LogInfo "received track event"] ++ [e]) s).
  rewrite <- logged_logged.
  destruct (useTransceivers env); run.
  - split.
    + by intros ->.
    + intros Hno. destruct (transceiverTrackIsVideoInput env (track_id track)); done.
  - split.
    + intros [rest ->]. by rewrite bool_decide_eq_true_2.
    + intros Hno.
      assert (match activeVideoInput env with
              | Some (first :: _) => bool_decide (first = track_id track)
              | _ => false
              end = false) as ->; [|done].
      destruct (activeVideoInput env) as [[|first rest]|]; try done.
      apply bool_decide_eq_false_2. intros ->. apply Hno. eauto.
Qed.

Lemma video_track_routing_witness :
  (kind More.camera = "video" ∧ local_video_input More.env_planb More.camera)
  ∧ Task.trackAddedHandler More.env_planb More.camera (Some Scenario.stream)
      Scenario.started
    = Ret tt (logged [LogInfo "received track event";
                      LogDebug "getting video track type (plan-b)"] Scenario.started)
  ∧ (¬ local_video_input More.env_planb (Scenario.video Scenario.hd_720))
  ∧ Task.trackAddedHandler More.env_planb (Scenario.video Scenario.hd_720) None
      Scenario.started
    = Throw (TypeError "Cannot read properties of undefined")
        (logged [LogInfo "received track event";
                 LogDebug "getting video track type (plan-b)"] Scenario.started).
Proof.
  assert (local_video_input More.env_planb More.camera) as Hyes by (by exists []).
  assert (¬ local_video_input More.env_planb (Scenario.video Scenario.hd_720)) as Hno
    by (by intros [rest [=]]).
  split; [by split|]. split; [|split; [exact Hno|]].
  - exact (proj1 (video_track_routing More.env_planb More.camera Scenario.started
                    eq_refl) Hyes (Some Scenario.stream)).
  - exact (proj2 (proj2 (video_track_routing More.env_planb
                           (Scenario.video Scenario.hd_720) Scenario.started eq_refl)
                    Hno)).
Defined.

(** ** Adding a remote video track *)


Lemma addTrackEventListeners_frame {A} (f : State -> A) track stream tile sid s s' :
  ignores f upd_nextId → ignores f upd_listeners →
  ignores f upd_removeVideoTrackEventListeners →
  Task.addTrackEventListeners track stream tile sid s = Ret tt s' → f s' = f s.
Proof.
  intros H1 H2 H3 Hrun.
  pose proof (addTrackEventListeners_keeps f track stream tile sid H1 H2 H3 s) as Hk.
  by rewrite Hrun in Hk.
Qed.


(** What [addRemoteVideoTrack] does to tiles, timers and the log for any
    stream, with or without video sub-tracks. *)
Lemma addRemoteVideoTrack_common env track stream s :
  let n := nextId s in
  let trackId := remote_trackId env track stream in
  let attendeeId := attendeeIdForTrack env trackId in
  let sid := streamIdForTrack env trackId in
  let removed := filter (tile_bound_to s attendeeId) (tileRegistry s) in
  let a := {| ba_track := track; ba_tile := n; ba_attendeeId := attendeeId;
              ba_stream := bound_stream env track stream; ba_streamId := sid;
              ba_trackId := trackId |} in
  ∃ s1 timer, Task.addRemoteVideoTrack env track stream s = Ret tt s1
    ∧ tileRegistry s1 = filter (fun x => x ∉ removed) (tileRegistry s) ++ [n]
    ∧ tileStates s1 = <[n := new_tile_state n]> (tileStates s)
    ∧ timers s1
      = <[timer := {| timer_ms := backoffAmountMs env 1%nat;
                      timer_cb := RetryCallback a |}]> (timers s)
    ∧ tracks s1 = tracks s
    ∧ presenceSubscribers s1 = presenceSubscribers s
    ∧ presenceHandlerSet s1 = presenceHandlerSet s
    ∧ (∃ d, td_trackId d = track_id track
            ∧ removeTrackRemovedEventListeners s1
              = <[track_id track := d]> (removeTrackRemovedEventListeners s))
    ∧ trace s1
      = trace s
        ++ [RemoveTilesByAttendee attendeeId removed]
        ++ match removed with
           | [] => []
           | _ => [LogInfo "removing existing tiles with same attendee id"]
           end
        ++ match sid with
           | None => [LogWarn "stream not found for tile"]
           | Some _ => []
           end
        ++ [TimerStart timer (backoffAmountMs env 1%nat) (RetryCallback a)]
        ++ (if requiresUnifiedPlan env then []
            else [LogDebug "updating end event and target track (plan-b)"]).
Proof.
  unfold bound_stream, remote_trackId. cbn zeta.
  unfold_task. run.
  destruct (filter _ (tileRegistry s)) eqn:Hf;
    destruct (requiresUnifiedPlan env) eqn:Hu;
    destruct (streamIdForTrack env _) eqn:Hs; run.
  all: match goal with
       | |- context [Task.addTrackEventListeners ?t ?st ?tile ?sid ?s0] =>
           destruct (total_run (Task.addTrackEventListeners t st tile sid) s0
                       (addTrackEventListeners_total _ _ _ _)) as ([] & s0' & Heq);
           pose proof (λ A (f : State → A) H1 H2 H3,
                         addTrackEventListeners_frame f t st tile sid s0 s0' H1 H2 H3 Heq)
             as Hframe;
           pose proof (Hframe _ trace ltac:(done) ltac:(done) ltac:(done)) as Htrace;
           pose proof (Hframe _ timers ltac:(done) ltac:(done) ltac:(done)) as Htimers;
           pose proof (Hframe _ tileRegistry ltac:(done) ltac:(done) ltac:(done)) as Htr;
           pose proof (Hframe _ tileStates ltac:(done) ltac:(done) ltac:(done)) as Hts;
           pose proof (Hframe _ tracks ltac:(done) ltac:(done) ltac:(done)) as Htk;
           pose proof (Hframe _ removeTrackRemovedEventListeners
                         ltac:(done) ltac:(done) ltac:(done)) as Hrr;
           pose proof (Hframe _ presenceSubscribers ltac:(done) ltac:(done) ltac:(done))
             as Hps;
           pose proof (Hframe _ presenceHandlerSet ltac:(done) ltac:(done) ltac:(done))
             as Hph;
           clear Hframe; rewrite Heq;
           cbn in Htrace, Htimers, Htr, Hts, Htk, Hrr, Hps, Hph
       end.
  all: run.
  all: eexists _, _; split; [reflexivity|]; cbn.
  all: rewrite Htrace, Htimers, Htr, Hts, Htk, Hrr, Hps, Hph.
  all: rewrite <- ?app_assoc; cbn.
  all: repeat split; try done.
  all: eexists; split; [|reflexivity]; done.
Qed.

#[global] Arguments Task.addRemoteVideoTrack : simpl never.






(** ** Registering and releasing listeners *)














(** ** The backoff gate *)

(** [retryWithBackoff] is gated by [isContentWidthHeightSet]: with the flag
    set it returns false and touches nothing; with the flag clear and no
    backoff policy created yet it raises a [TypeError] at once; with the
    flag clear and a policy that has handed out [n] delays it returns
    true, arms one timer carrying the retry function, and takes two delays
    from the policy, the first for the debug print and the second for the
    timer. *)
Theorem retryWithBackoff_gate (env : Env) (retryFunc : Callback) (s : State) :
  (isContentWidthHeightSet s = true →
     Task.retryWithBackoff env retryFunc s = Ret false s)
  ∧ (isContentWidthHeightSet s = false → backoffPolicy s = None →
       Task.retryWithBackoff env retryFunc s
         = Throw (TypeError "Cannot read properties of undefined") s)
  ∧ (∀ n, isContentWidthHeightSet s = false → backoffPolicy s = Some n →
       ∃ s', Task.retryWithBackoff env retryFunc s = Ret true s'
         ∧ backoffPolicy s' = Some (S (S n))
         ∧ backoffTimer s' = Some (nextId s)
         ∧ timers s'
           = <[nextId s := {| timer_ms := backoffAmountMs env (S n);
                              timer_cb := retryFunc |}]> (timers s)
         ∧ trace s'
           = trace s ++ [TimerStart (nextId s) (backoffAmountMs env (S n)) retryFunc]
         ∧ tileStates s' = tileStates s
         ∧ trackCapability s' = trackCapability s).
Proof.
  unfold Task.retryWithBackoff, nextBackoffAmountMs, scheduler_start.
  split; [|split].
  - intros Hf. by run_with Hf.
  - intros Hf Hp. run_with Hf. by rewrite Hp.
  - intros n Hf Hp. run_with Hf. rewrite Hp. run.
    eexists. split; [reflexivity|]. done.
Qed.

Lemma retryWithBackoff_gate_witness :
  let cb := RetryCallback (Scenario.bind_args Scenario.hd_720) in
  Task.retryWithBackoff Scenario.env cb
    (upd_isContentWidthHeightSet (fun _ => true) initial)
    = Ret false (upd_isContentWidthHeightSet (fun _ => true) initial)
  ∧ Task.retryWithBackoff Scenario.env cb initial
    = Throw (TypeError "Cannot read properties of undefined") initial
  ∧ ∃ s', Task.retryWithBackoff Scenario.env cb
            (upd_backoffPolicy (fun _ => Some 0%nat) initial) = Ret true s'
      ∧ backoffPolicy s' = Some 2%nat.
Proof.
  cbn zeta. split; [|split].
  - exact (proj1 (retryWithBackoff_gate Scenario.env _
                    (upd_isContentWidthHeightSet (fun _ => true) initial)) eq_refl).
  - exact (proj1 (proj2 (retryWithBackoff_gate Scenario.env _ initial)) eq_refl eq_refl).
  - destruct (proj2 (proj2 (retryWithBackoff_gate Scenario.env
                              (RetryCallback (Scenario.bind_args Scenario.hd_720))
                              (upd_backoffPolicy (fun _ => Some 0%nat) initial)))
                0%nat eq_refl eq_refl) as (s' & H1 & H2 & _).
    exists s'. split; [exact H1|exact H2].
Defined.

(** [bindTile] always resets the stored snapshot to [null] first.  Called
    while [isContentWidthHeightSet] is still set from an earlier binding it
    does nothing more, so the tile it was given is never bound; called
    before any policy exists it raises; [addRemoteVideoTrack] avoids both
    by creating the policy and clearing the flag right before the call. *)
Theorem bindTile_outside_addRemoteVideoTrack (env : Env) (track : Track) (tile : nat)
    (attendeeId : string) (stream : MediaStream) (sid : option Z) (trackId : string)
    (s : State) :
  (isContentWidthHeightSet s = true →
     Task.bindTile env track tile attendeeId stream sid trackId s
       = Ret tt (with_capability CapNull s))
  ∧ (isContentWidthHeightSet s = false → backoffPolicy s = None →
       Task.bindTile env track tile attendeeId stream sid trackId s
         = Throw (TypeError "Cannot read properties of undefined")
             (with_capability CapNull s)).
Proof.
  unfold Task.bindTile, Task.retryWithBackoff, nextBackoffAmountMs, scheduler_start.
  split.
  - intros Hf. by run_with Hf.
  - intros Hf Hp. run_with Hf. by rewrite Hp.
Qed.

Lemma bindTile_outside_addRemoteVideoTrack_witness :
  let bound := steps Scenario.env_known Scenario.started
                 [TrackEvent (Scenario.video Scenario.hd_720) (Some Scenario.stream);
                  TimerFires 6] in
  isContentWidthHeightSet bound = true
  ∧ Task.bindTile Scenario.env_known (Scenario.video Scenario.hd_720) 1 "a2"
      Scenario.stream2 (Some 9) "s2" bound
    = Ret tt (with_capability CapNull bound)
  ∧ Task.bindTile Scenario.env_known (Scenario.video Scenario.hd_720) 1 "a2"
      Scenario.stream2 (Some 9) "s2" initial
    = Throw (TypeError "Cannot read properties of undefined")
        (with_capability CapNull initial).
Proof.
  cbn zeta. split; [by vm_compute|]. split.
  - apply (proj1 (bindTile_outside_addRemoteVideoTrack Scenario.env_known
                    (Scenario.video Scenario.hd_720) 1 "a2" Scenario.stream2 (Some 9)
                    "s2" _)).
    by vm_compute.
  - exact (proj2 (bindTile_outside_addRemoteVideoTrack Scenario.env_known
                    (Scenario.video Scenario.hd_720) 1 "a2" Scenario.stream2 (Some 9)
                    "s2" initial) eq_refl eq_refl).
Defined.

(** ** Identity resolution *)

(** When the snapshot passes the readiness check, the answer of the
    identity directory decides what the retry function does.  A truthy
    external id binds the tile at once and leaves the presence feed, the
    handler set and the timers alone.  Any falsy answer, [null],
    [undefined] or the empty string, binds nothing and instead subscribes
    one new handler that remembers tile, attendee, stream, dimensions and
    stream id, and arms its timeout with the configured delay. *)
Theorem external_id_decides_between_bind_and_subscription (env : Env) (a : BindArgs)
    (s : State) :
  let o := snapshot (current_track s (ba_track a)) in
  let ext := realtimeExternalUserIdFromAttendeeId env (ba_attendeeId a) in
  width o ≠ JsNull →
  ∃ s', Task.retryFunc env a s = Ret tt s'
    ∧ (truthy ext = true →
         tileStates s' !! ba_tile a
           = Some (bound_tile (ba_tile a) (ba_attendeeId a) (ba_stream a)
                     (width o) (height o) (ba_streamId a) ext)
         ∧ presenceSubscribers s' = presenceSubscribers s
         ∧ presenceHandlerSet s' = presenceHandlerSet s
         ∧ handlers s' = handlers s
         ∧ timers s' = timers s
         ∧ count is_subscribe (trace s') = count is_subscribe (trace s))
    ∧ (truthy ext = false →
         let timeout := nextId s in
         let handler := S (nextId s) in
         tileStates s' = tileStates s
         ∧ count is_bind (trace s') = count is_bind (trace s)
         ∧ presenceSubscribers s' = presenceSubscribers s ++ [handler]
         ∧ (handler ∈ presenceHandlerSet s')
         ∧ handlers s' !! handler
           = Some {| ph_tile := ba_tile a; ph_attendeeId := ba_attendeeId a;
                     ph_stream := ba_stream a; ph_width := width o;
                     ph_height := height o; ph_streamId := ba_streamId a;
                     ph_timeout := timeout |}
         ∧ timers s'
           = <[timeout := {| timer_ms := externalUserIdTimeoutMs env;
                             timer_cb := PresenceTimeout handler |}]> (timers s)).
Proof.
  cbn zeta. unfold snapshot. intros Hw. unfold_task. run.
  assert (∀ v, v ≠ JsNull → strict_ne_null v = true) as Hsn by (by intros []).
  destruct (getSettings (current_track s (ba_track a))) as [o|]; run.
  all: repeat (rewrite ?typeof_never_null, ?andb_true_r, ?(Hsn _ Hw); run).
  all: destruct (truthy _) eqn:Ht; run.
  all: eexists; split; [reflexivity|]; cbn.
  all: rewrite ?count_app; cbn.
  all: split; intros [=].
  all: repeat split; try done; try lia.
  all: try apply lookup_insert_eq.
  all: case_decide; [done|]; apply elem_of_app; right; by left.
Qed.

Lemma external_id_decides_between_bind_and_subscription_witness :
  let a := {| ba_track := Scenario.video Scenario.hd_720; ba_tile := 0;
              ba_attendeeId := "a1"; ba_stream := Scenario.stream;
              ba_streamId := None; ba_trackId := "t1" |} in
  (width (snapshot (current_track Scenario.started (ba_track a))) ≠ JsNull
   ∧ truthy (realtimeExternalUserIdFromAttendeeId More.env_planb "a1") = false)
  ∧ ∃ s', Task.retryFunc More.env_planb a Scenario.started = Ret tt s'
      ∧ presenceSubscribers s' = [1%nat]
      ∧ tileStates s' = tileStates Scenario.started.
Proof.
  cbn zeta. split; [by split|].
  destruct (external_id_decides_between_bind_and_subscription More.env_planb
              {| ba_track := Scenario.video Scenario.hd_720; ba_tile := 0;
                 ba_attendeeId := "a1"; ba_stream := Scenario.stream;
                 ba_streamId := None; ba_trackId := "t1" |} Scenario.started)
    as (s' & Hrun & _ & Hsub); [by intros [=]|].
  destruct (Hsub eq_refl) as (Ht & _ & Hs & _).
  exists s'. split; [exact Hrun|]. split; [exact Hs|exact Ht].
Defined.

(** ** Presence events and timeouts through the event loop *)

Lemma presence_loop_without_match (attendeeId : string) present externalUserId s
    (hs : list nat) :
  (∀ h c, h ∈ hs → h ∈ presenceSubscribers s → handlers s !! h = Some c →
          ¬ presence_match c attendeeId present externalUserId) →
  for_of hs (fun h =>
    live <- gets (fun s => bool_decide (h ∈ presenceSubscribers s)) ;;
    c <- gets (fun s => handlers s !! h) ;;
    match live, c with
    | true, Some c =>
        uncaught (Task.presenceHandler h c attendeeId present externalUserId)
    | _, _ => ret tt
    end) s = Ret tt s.
Proof.
  induction hs as [|h hs IH]; intros Hno; [done|].
  cbn [for_of]. unfold bind at 1.
  assert ((live <- gets (fun s => bool_decide (h ∈ presenceSubscribers s)) ;;
           c <- gets (fun s => handlers s !! h) ;;
           match live, c with
           | true, Some c =>
               uncaught (Task.presenceHandler h c attendeeId present externalUserId)
           | _, _ => ret tt
           end) s = Ret tt s) as ->.
  { unfold bind, gets.
    destruct (bool_decide (h ∈ presenceSubscribers s)) eqn:Hlive; [|done].
    destruct (handlers s !! h) as [c|] eqn:Hc; [|done].
    unfold uncaught.
    destruct (presenceHandler_run h c attendeeId present externalUserId s) as [_ Hother].
    rewrite Hother; [done|].
    apply (Hno h c); [by left| |done]. by apply bool_decide_eq_true_1 in Hlive. }
  apply IH. intros h' c Hh'. apply Hno. by right.
Qed.

(** A presence event that matches none of the subscribed handlers, by
    attendee id, presence and a non-null external id, leaves the whole
    state as it is: nothing is bound, unsubscribed, cancelled or logged. *)
Theorem presence_event_without_match_changes_nothing (env : Env) (attendeeId : string)
    (present : bool) (externalUserId : JsVal) (s : State) :
  (∀ h c, h ∈ presenceSubscribers s → handlers s !! h = Some c →
          ¬ presence_match c attendeeId present externalUserId) →
  step env s (Presence attendeeId present externalUserId) = s.
Proof.
  intros Hno. unfold step, turn. unfold bind at 1, gets at 1.
  rewrite presence_loop_without_match; [done|]. intros h c _. apply Hno.
Qed.

Lemma presence_event_without_match_changes_nothing_witness :
  (∀ h c, h ∈ presenceSubscribers Scenario.awaiting_presence →
          handlers Scenario.awaiting_presence !! h = Some c →
          ¬ presence_match c "a1" false (JsStr "u-42"))
  ∧ step Scenario.env Scenario.awaiting_presence (Presence "a1" false (JsStr "u-42"))
    = Scenario.awaiting_presence.
Proof.
  assert (∀ h c, h ∈ presenceSubscribers Scenario.awaiting_presence →
                 handlers Scenario.awaiting_presence !! h = Some c →
                 ¬ presence_match c "a1" false (JsStr "u-42")) as Hno
    by (by intros h c _ _ (_ & [=] & _)).
  split; [exact Hno|].
  exact (presence_event_without_match_changes_nothing Scenario.env "a1" false
           (JsStr "u-42") Scenario.awaiting_presence Hno).
Defined.

Lemma presenceTimeout_keeps_tiles h : keeps tileStates (Task.presenceTimeout h).
Proof.
  unfold Task.presenceTimeout, realtimeUnsubscribeToAttendeeIdPresence,
    presenceHandlerSet_delete.
  repeat (apply keeps_bind; [|intros _]); by (apply keeps_modify || apply keeps_emit).
Qed.

(** When the timeout of a presence subscription fires first, the binding
    is abandoned: the handler is unsubscribed and leaves the handler set,
    no tile state changes and nothing is bound; and if it was the only
    subscriber, every later presence event, matching or not, is ignored. *)
Theorem presence_timeout_abandons_binding (env : Env) (timer : nat) (ms : Z)
    (handler : nat) (s : State) :
  timers s !! timer = Some {| timer_ms := ms; timer_cb := PresenceTimeout handler |} →
  let s' := step env s (TimerFires timer) in
  tileStates s' = tileStates s
  ∧ count is_bind (trace s') = count is_bind (trace s)
  ∧ count is_uncaught (trace s') = count is_uncaught (trace s)
  ∧ (handler ∉ presenceSubscribers s')
  ∧ (handler ∉ presenceHandlerSet s')
  ∧ timers s' = delete timer (timers s)
  ∧ ((∀ h, h ∈ presenceSubscribers s → h = handler) →
     ∀ attendeeId present externalUserId,
       step env s' (Presence attendeeId present externalUserId) = s').
Proof.
  intros Ht. cbn zeta.
  assert (∃ s', step env s (TimerFires timer) = s'
            ∧ presenceSubscribers s'
              = filter (fun x => x ≠ handler) (presenceSubscribers s)
            ∧ presenceHandlerSet s'
              = filter (fun x => x ≠ handler) (presenceHandlerSet s)
            ∧ timers s' = delete timer (timers s)
            ∧ tileStates s' = tileStates s
            ∧ trace s' = trace s ++ released [handler])
    as (s' & -> & Hsubs & Hset & Htimers & Htiles & Htrace).
  { unfold step, turn. unfold bind at 1, gets at 1. rewrite Ht.
    unfold bind at 1, modify at 1, uncaught. cbn [timer_cb run_callback].
    destruct (presenceTimeout_run handler (upd_timers (fun m => delete timer m) s))
      as (s' & Hrun & H1 & H2 & H3 & H4).
    pose proof (presenceTimeout_keeps_tiles handler
                  (upd_timers (fun m => delete timer m) s)) as Hk.
    rewrite Hrun in Hk |- *. cbn in Hk |- *. exists s'. repeat split; done. }
  rewrite Htiles, Htimers, Hsubs, Hset, Htrace, !count_app. cbn.
  repeat split; try done; try lia; try apply not_elem_of_filter_ne.
  intros Honly attendeeId present externalUserId.
  apply presence_event_without_match_changes_nothing.
  intros h c Hh. rewrite Hsubs in Hh.
  apply list_elem_of_filter in Hh as [Hne Hin]. by apply Honly in Hin.
Qed.

Lemma presence_timeout_abandons_binding_witness :
  let s := Scenario.awaiting_presence in
  let s' := step Scenario.env s (TimerFires 8) in
  (timers s !! 8%nat
   = Some {| timer_ms := 10000; timer_cb := PresenceTimeout 9 |}
   ∧ ∀ h, h ∈ presenceSubscribers s → h = 9%nat)
  ∧ tileStates s' = tileStates s
  ∧ (9%nat ∉ presenceSubscribers s')
  ∧ step Scenario.env s' (Presence "a1" true (JsStr "u-42")) = s'.
Proof.
  cbn zeta.
  assert (timers Scenario.awaiting_presence !! 8%nat
          = Some {| timer_ms := 10000; timer_cb := PresenceTimeout 9 |}) as Ht
    by (by vm_compute).
  assert (∀ h, h ∈ presenceSubscribers Scenario.awaiting_presence → h = 9%nat) as Honly.
  { intros h. change (presenceSubscribers Scenario.awaiting_presence) with [9%nat].
    by intros ->%list_elem_of_singleton. }
  split; [by split|].
  destruct (presence_timeout_abandons_binding Scenario.env 8 10000 9
              Scenario.awaiting_presence Ht) as (H1 & _ & _ & H2 & _ & _ & H3).
  split; [exact H1|]. split; [exact H2|]. exact (H3 Honly "a1" true (JsStr "u-42")).
Defined.

(** ** Invariants of the registries *)

Lemma preserves_ret {B} P (b : B) : preserves P (ret b).
Proof. by intros s. Qed.

Lemma preserves_throw {B} P e : preserves P (@throw B e).
Proof. by intros s. Qed.

Lemma preserves_gets {B} P (g : State -> B) : preserves P (gets g).
Proof. by intros s. Qed.

Lemma preserves_bind {B C} P (m : M B) (k : B -> M C) :
  preserves P m → (∀ b, preserves P (k b)) → preserves P (bind m k).
Proof.
  intros Hm Hk s HP. rewrite final_bind. specialize (Hm s HP).
  destruct (m s) as [b s'|e s']; cbn in Hm; [by apply Hk|done].
Qed.

Lemma preserves_for_of {B} P (xs : list B) (body : B -> M unit) :
  (∀ x, preserves P (body x)) → preserves P (for_of xs body).
Proof.
  intros Hb. induction xs as [|x xs IH]; cbn; [apply preserves_ret|].
  apply preserves_bind; auto.
Qed.

Lemma preserves_keeps {A B} P (f : State -> A) (m : M B) :
  (∀ s s', f s' = f s → P s → P s') → keeps f m → preserves P m.
Proof. intros Hdep Hk s HP. eapply Hdep; [apply Hk|done]. Qed.

Lemma preserves_uncaught P (m : M unit) :
  (∀ g s, P s → P (upd_trace g s)) → preserves P m → preserves P (uncaught m).
Proof.
  intros Ht Hm s HP. specialize (Hm s HP). unfold uncaught.
  destruct (m s); cbn in *; [done|by apply Ht].
Qed.

Lemma well_keyed_depends s s' : registries s' = registries s → well_keyed s → well_keyed s'.
Proof. unfold well_keyed, registries. by intros [= -> _ _]. Qed.

Lemma mirrors_depends s s' : registries s' = registries s → mirrors s → mirrors s'.
Proof. unfold mirrors, registries. by intros [= _ -> ->]. Qed.

Lemma well_keyed_delete k s s' :
  removeTrackRemovedEventListeners s' = delete k (removeTrackRemovedEventListeners s) →
  well_keyed s → well_keyed s'.
Proof.
  unfold well_keyed. intros -> Hwk k' d Hd.
  apply lookup_delete_Some in Hd as [_ Hd]. by apply Hwk.
Qed.

Lemma mirrors_filter (P : nat → Prop) `{∀ x, Decision (P x)} s s' :
  presenceHandlerSet s' = filter P (presenceHandlerSet s) →
  presenceSubscribers s' = filter P (presenceSubscribers s) →
  mirrors s → mirrors s'.
Proof.
  unfold mirrors. intros -> -> Hm h. rewrite !list_elem_of_filter. by rewrite Hm.
Qed.


(** Prove that a computation built from the primitives leaves a projection
    alone, given that the projection ignores the fields they update. *)
Ltac keeps_tac :=
  repeat first
    [ apply keeps_ret | apply keeps_throw | apply keeps_gets
    | apply keeps_modify; done
    | apply keeps_emit; done
    | apply keeps_bind; [|intros ?]
    | apply keeps_for_of; intros ?
    | apply keeps_uncaught; [done|]
    | match goal with
      | |- keeps _ (if ?b then _ else _) => destruct b
      | |- keeps _ (match ?x with _ => _ end) => destruct x
      | |- keeps _ (fresh) => intros ?; reflexivity
      end ].

Lemma async_call_keeps {A} (f : State -> A) (m : M unit) :
  ignores f upd_trace → keeps f m → keeps f (async_call m).
Proof.
  intros Hf Hm s. unfold async_call. specialize (Hm s).
  destruct (m s); cbn in *; [done|]. by rewrite Hf.
Qed.

Lemma preserves_async_call P (m : M unit) :
  (∀ g s, P s → P (upd_trace g s)) → preserves P m → preserves P (async_call m).
Proof.
  intros Ht Hm s HP. specialize (Hm s HP). unfold async_call.
  destruct (m s); cbn in *; [done|by apply Ht].
Qed.

Lemma isCapabilitySet_keeps {A} (f : State -> A) :
  ignores f upd_isContentWidthHeightSet → keeps f Task.isCapabilitySet.
Proof.
  intros H. unfold Task.isCapabilitySet, capability_prop. keeps_tac.
Qed.

Lemma bindVideoStream_keeps {A} (f : State -> A) tile attendeeId stream w h sid ext :
  ignores f upd_tileStates → ignores f upd_trace →
  keeps f (bindVideoStream tile attendeeId stream w h sid ext).
Proof. intros H1 H2. unfold bindVideoStream. keeps_tac. Qed.

(** Everything in the retry function except the presence subscription
    leaves the registries alone. *)
Lemma retryFunc_preserves P env a :
  (∀ s s', registries s' = registries s → P s → P s') →
  (∀ tile attendeeId stream w h sid,
     preserves P (Task.bindExternalIdToRemoteTile env tile attendeeId stream w h sid)) →
  preserves P (Task.retryFunc env a).
Proof.
  intros Hdep Hsub. unfold Task.retryFunc.
  assert (∀ B (m : M B), keeps registries m → preserves P m) as Hk
    by (intros B m; by apply preserves_keeps).
  apply preserves_bind; [apply preserves_gets|]. intros cur.
  apply preserves_bind; [apply Hk; keeps_tac|]. intros _.
  apply preserves_bind; [apply Hk; keeps_tac|]. intros _.
  apply preserves_bind; [by apply Hk, isCapabilitySet_keeps|]. intros _.
  apply preserves_bind; [by apply Hk, isCapabilitySet_keeps|]. intros [|];
    [|apply preserves_ret].
  apply preserves_bind; [apply Hk; unfold capability_prop; keeps_tac|]. intros w.
  apply preserves_bind; [apply Hk; unfold capability_prop; keeps_tac|]. intros h.
  apply preserves_bind; [apply Hk; keeps_tac|]. intros _.
  apply preserves_bind; [|intros _; apply Hk; keeps_tac].
  destruct (truthy _); [by apply Hk, bindVideoStream_keeps|apply Hsub].
Qed.

Lemma bindExternalIdToRemoteTile_well_keyed env tile attendeeId stream w h sid :
  preserves well_keyed
    (Task.bindExternalIdToRemoteTile env tile attendeeId stream w h sid).
Proof.
  apply (preserves_keeps _ removeTrackRemovedEventListeners).
  { unfold well_keyed. by intros s s' ->. }
  unfold Task.bindExternalIdToRemoteTile, realtimeSubscribeToAttendeeIdPresence,
    presenceHandlerSet_add, scheduler_start.
  intros s. by run.
Qed.

Lemma bindExternalIdToRemoteTile_mirrors env tile attendeeId stream w h sid :
  preserves mirrors (Task.bindExternalIdToRemoteTile env tile attendeeId stream w h sid).
Proof.
  unfold Task.bindExternalIdToRemoteTile, realtimeSubscribeToAttendeeIdPresence,
    presenceHandlerSet_add, scheduler_start.
  intros s Hm. run. unfold mirrors in *. cbn. intros h'.
  rewrite elem_of_app, list_elem_of_singleton, <- Hm.
  case_decide as Hin; [|by rewrite elem_of_app, list_elem_of_singleton].
  split; [by left|]. by intros [?| ->].
Qed.

(** Adding a track stores its disposer under the track's own id and leaves
    the presence registries alone. *)
Lemma addRemoteVideoTrack_well_keyed env track stream :
  preserves well_keyed (Task.addRemoteVideoTrack env track stream).
Proof.
  intros s Hwk.
  destruct (addRemoteVideoTrack_common env track stream s)
    as (s1 & timer & -> & _ & _ & _ & _ & _ & _ & (d & Hd & Hmap) & _).
  cbn. unfold well_keyed. rewrite Hmap. intros k d'.
  rewrite lookup_insert. case_decide as Hk; [|apply Hwk].
  intros [= <-]. by rewrite Hd.
Qed.

Lemma addRemoteVideoTrack_mirrors env track stream :
  preserves mirrors (Task.addRemoteVideoTrack env track stream).
Proof.
  intros s Hm.
  destruct (addRemoteVideoTrack_common env track stream s)
    as (s1 & timer & -> & _ & _ & _ & _ & Hsubs & Hset & _).
  cbn. unfold mirrors. by rewrite Hsubs, Hset.
Qed.

Lemma trackAddedHandler_preserves P env track stream :
  (∀ s s', registries s' = registries s → P s → P s') →
  (∀ stream, preserves P (Task.addRemoteVideoTrack env track stream)) →
  preserves P (Task.trackAddedHandler env track stream).
Proof.
  intros Hdep Hadd. unfold Task.trackAddedHandler, Task.trackIsVideoInput.
  assert (∀ B (m : M B), keeps registries m → preserves P m) as Hk
    by (intros B m; by apply preserves_keeps).
  apply preserves_bind; [apply Hk; keeps_tac|]. intros _.
  destruct (bool_decide (kind track = "audio")); [apply Hk; keeps_tac|].
  destruct (bool_decide (kind track = "video")); [|apply preserves_ret].
  apply preserves_bind; [apply Hk; keeps_tac|]. intros [|]; [apply preserves_ret|].
  destruct stream; [apply Hadd|apply preserves_throw].
Qed.

Lemma presenceHandler_keeps {A} (f : State -> A) h c attendeeId present externalUserId :
  ignores f upd_tileStates → ignores f upd_presenceSubscribers →
  ignores f upd_presenceHandlerSet → ignores f upd_timers → ignores f upd_trace →
  keeps f (Task.presenceHandler h c attendeeId present externalUserId).
Proof.
  intros H1 H2 H3 H4 H5.
  unfold Task.presenceHandler, bindVideoStream, realtimeUnsubscribeToAttendeeIdPresence,
    presenceHandlerSet_delete, scheduler_stop.
  keeps_tac.
Qed.

Lemma presenceHandler_mirrors h c attendeeId present externalUserId :
  preserves mirrors (Task.presenceHandler h c attendeeId present externalUserId).
Proof.
  intros s Hm.
  destruct (presenceHandler_run h c attendeeId present externalUserId s)
    as [Hmatch Hother].
  destruct (decide (presence_match c attendeeId present externalUserId)) as [Hyes|Hno].
  - destruct (Hmatch Hyes) as (s' & -> & _ & Hsubs & Hset & _). cbn.
    by eapply (mirrors_filter (fun x => x ≠ h)).
  - by rewrite (Hother Hno).
Qed.

Lemma presenceTimeout_mirrors h : preserves mirrors (Task.presenceTimeout h).
Proof.
  intros s Hm. destruct (presenceTimeout_run h s) as (s' & -> & Hsubs & Hset & _). cbn.
  by eapply (mirrors_filter (fun x => x ≠ h)).
Qed.

Lemma removeObserver_mirrors : preserves mirrors Task.removeObserver.
Proof.
  intros s Hm. destruct (removeObserver_run s) as (s' & -> & Hsubs & Hset & _). cbn.
  unfold mirrors in *. rewrite Hsubs, Hset. intros h.
  rewrite list_elem_of_filter, <- (Hm h).
  split; [by intros ?%elem_of_nil|by intros []].
Qed.

Lemma run_trackRemovedDisposer_well_keyed d :
  preserves well_keyed (Task.run_trackRemovedDisposer d).
Proof.
  intros s Hwk. unfold Task.run_trackRemovedDisposer, removeEventListener. run.
  by eapply (well_keyed_delete (td_trackId d) s).
Qed.

Lemma removeRemoteVideoTrack_well_keyed trackId ts :
  preserves well_keyed (Task.removeRemoteVideoTrack trackId ts).
Proof.
  unfold Task.removeRemoteVideoTrack, removeVideoTile, videosPaused_remove,
    Task.run_videoTrackDisposer, removeEventListener.
  assert (∀ B (m : M B), keeps registries m → preserves well_keyed m) as Hk
    by (intros B m; apply preserves_keeps, well_keyed_depends).
  apply preserves_bind; [apply preserves_gets|]. intros [d|]; [|apply preserves_throw].
  apply preserves_bind; [apply run_trackRemovedDisposer_well_keyed|]. intros _.
  apply Hk. keeps_tac.
Qed.

Lemma removeObserver_well_keyed : preserves well_keyed Task.removeObserver.
Proof.
  unfold Task.removeObserver, Task.releaseTrackAddedListener,
    Task.releaseTrackRemovedListeners, Task.releasePresenceHandlers,
    Task.releasePresenceHandler, realtimeUnsubscribeToAttendeeIdPresence,
    presenceHandlerSet_delete.
  assert (∀ B (m : M B), keeps removeTrackRemovedEventListeners m
                         → preserves well_keyed m) as Hk.
  { intros B m. apply preserves_keeps. unfold well_keyed. by intros s s' ->. }
  apply preserves_bind; [apply preserves_gets|]. intros r.
  apply preserves_bind; [apply Hk; keeps_tac|]. intros _.
  apply preserves_bind; [|intros _; apply Hk; keeps_tac].
  apply preserves_bind; [apply preserves_gets|]. intros keys.
  apply preserves_for_of. intros k.
  apply preserves_bind; [apply preserves_gets|]. intros [d|]; [|apply preserves_ret].
  apply run_trackRemovedDisposer_well_keyed.
Qed.

Lemma well_keyed_logged g s : well_keyed s → well_keyed (upd_trace g s).
Proof. done. Qed.

Lemma mirrors_logged g s : mirrors s → mirrors (upd_trace g s).
Proof. done. Qed.

Lemma turn_well_keyed env i : preserves well_keyed (turn env i).
Proof.
  assert (∀ B (m : M B), keeps registries m → preserves well_keyed m) as Hk
    by (intros B m; apply preserves_keeps, well_keyed_depends).
  destruct i as [track stream|timer|attendeeId present ext|target ev|track|]; cbn [turn].
  - apply preserves_bind; [apply preserves_gets|]. intros [|]; [|apply preserves_ret].
    apply preserves_bind; [apply Hk; keeps_tac|]. intros _.
    apply preserves_uncaught; [apply well_keyed_logged|].
    apply trackAddedHandler_preserves; [apply well_keyed_depends|].
    intros st. apply addRemoteVideoTrack_well_keyed.
  - apply preserves_bind; [apply preserves_gets|]. intros [[ms [a|h]]|];
      [| |apply preserves_ret].
    + apply preserves_bind; [apply Hk; keeps_tac|]. intros _.
      apply preserves_uncaught; [apply well_keyed_logged|]. cbn.
      apply preserves_async_call; [apply well_keyed_logged|].
      apply retryFunc_preserves; [apply well_keyed_depends|].
      apply bindExternalIdToRemoteTile_well_keyed.
    + apply preserves_bind; [apply Hk; keeps_tac|]. intros _.
      apply preserves_uncaught; [apply well_keyed_logged|]. cbn.
      apply (preserves_keeps _ removeTrackRemovedEventListeners).
      { unfold well_keyed. by intros s s' ->. }
      unfold Task.presenceTimeout, realtimeUnsubscribeToAttendeeIdPresence,
        presenceHandlerSet_delete.
      intros s. by run.
  - apply (preserves_keeps _ removeTrackRemovedEventListeners).
    { unfold well_keyed. by intros s s' ->. }
    apply keeps_bind; [apply keeps_gets|]. intros subs.
    apply keeps_for_of. intros h.
    apply keeps_bind; [apply keeps_gets|]. intros [|];
      (apply keeps_bind; [apply keeps_gets|]); intros [c|]; try apply keeps_ret.
    apply keeps_uncaught; [done|]. by apply presenceHandler_keeps.
  - apply preserves_bind; [apply preserves_gets|]. intros ls.
    apply preserves_for_of. intros l.
    apply preserves_bind; [apply preserves_gets|]. intros [|]; [|apply preserves_ret].
    apply preserves_uncaught; [apply well_keyed_logged|]. unfold run_listener.
    destruct (l_body l); [apply Hk; keeps_tac|].
    apply preserves_bind; [apply preserves_gets|]. intros st.
    apply removeRemoteVideoTrack_well_keyed.
  - apply Hk. keeps_tac.
  - apply preserves_uncaught; [apply well_keyed_logged|]. apply removeObserver_well_keyed.
Qed.

Lemma turn_mirrors env i : preserves mirrors (turn env i).
Proof.
  assert (∀ B (m : M B), keeps registries m → preserves mirrors m) as Hk
    by (intros B m; apply preserves_keeps, mirrors_depends).
  destruct i as [track stream|timer|attendeeId present ext|target ev|track|]; cbn [turn].
  - apply preserves_bind; [apply preserves_gets|]. intros [|]; [|apply preserves_ret].
    apply preserves_bind; [apply Hk; keeps_tac|]. intros _.
    apply preserves_uncaught; [apply mirrors_logged|].
    apply trackAddedHandler_preserves; [apply mirrors_depends|].
    intros st. apply addRemoteVideoTrack_mirrors.
  - apply preserves_bind; [apply preserves_gets|]. intros [[ms [a|h]]|];
      [| |apply preserves_ret].
    + apply preserves_bind; [apply Hk; keeps_tac|]. intros _.
      apply preserves_uncaught; [apply mirrors_logged|]. cbn.
      apply preserves_async_call; [apply mirrors_logged|].
      apply retryFunc_preserves; [apply mirrors_depends|].
      apply bindExternalIdToRemoteTile_mirrors.
    + apply preserves_bind; [apply Hk; keeps_tac|]. intros _.
      apply preserves_uncaught; [apply mirrors_logged|]. cbn.
      apply presenceTimeout_mirrors.
  - apply preserves_bind; [apply preserves_gets|]. intros subs.
    apply preserves_for_of. intros h.
    apply preserves_bind; [apply preserves_gets|]. intros [|];
      (apply preserves_bind; [apply preserves_gets|]); intros [c|];
      try apply preserves_ret.
    apply preserves_uncaught; [apply mirrors_logged|]. apply presenceHandler_mirrors.
  - apply (preserves_keeps _ (fun s => (presenceHandlerSet s, presenceSubscribers s))).
    { unfold mirrors. by intros s s' [= -> ->]. }
    by apply (dispatch_keeps _ env target ev).
  - apply Hk. keeps_tac.
  - apply preserves_uncaught; [apply mirrors_logged|]. apply removeObserver_mirrors.
Qed.

(** The two registry invariants hold once [run()] has set the task up and
    are kept by every turn of the event loop, whatever the sequence of
    track events, timers, presence events, end events and teardowns: each
    entry of [removeTrackRemovedEventListeners] is stored under the id it
    deletes, and the handler set holds exactly the handlers subscribed to
    the presence feed. *)
Theorem registries_consistent_in_every_run (env : Env) (inputs : list Input) (s : State) :
  (well_keyed s → mirrors s →
     well_keyed (steps env s inputs) ∧ mirrors (steps env s inputs))
  ∧ well_keyed (steps env (final_state (Task.run initial)) inputs)
  ∧ mirrors (steps env (final_state (Task.run initial)) inputs).
Proof.
  assert (∀ s, well_keyed s → mirrors s →
               well_keyed (steps env s inputs) ∧ mirrors (steps env s inputs)) as Hall.
  { induction inputs as [|i inputs IH]; intros s0 Hwk Hm; [done|].
    cbn. apply IH; [by apply turn_well_keyed|by apply turn_mirrors]. }
  split; [apply Hall|]. apply Hall.
  - intros k d Hd. cbn in Hd. by rewrite lookup_empty in Hd.
  - done.
Qed.

Lemma registries_consistent_in_every_run_witness :
  let s := steps Scenario.env Scenario.started
             [TrackEvent (Scenario.video Scenario.hd_720) (Some Scenario.stream);
              TimerFires 6] in
  removeTrackRemovedEventListeners s !! "t1" = Some Scenario.disposer7
  ∧ presenceHandlerSet s = [9%nat]
  ∧ well_keyed s ∧ mirrors s
  ∧ well_keyed (steps Scenario.env s [RemoveObserver; TimerFires 8])
  ∧ mirrors (steps Scenario.env s [RemoveObserver; TimerFires 8]).
Proof.
  cbn zeta. split; [by vm_compute|]. split; [by vm_compute|].
  destruct (registries_consistent_in_every_run Scenario.env
              [TrackEvent (Scenario.video Scenario.hd_720) (Some Scenario.stream);
               TimerFires 6] initial) as (_ & Hwk & Hm).
  split; [exact Hwk|]. split; [exact Hm|].
  exact (proj1 (registries_consistent_in_every_run Scenario.env
                  [RemoveObserver; TimerFires 8] _) Hwk Hm).
Defined.

(** ** Session teardown *)

Lemma run_trackRemovedDisposer_run d s :
  Task.run_trackRemovedDisposer d s
    = Ret tt (upd_removeTrackRemovedEventListeners (fun m => delete (td_trackId d) m)
                (upd_listeners
                   (fun ls => filter (fun l => ¬ same_listener (td_target d)
                                                  (td_endEvent d) (td_handler d) l) ls)
                   s)).
Proof. done. Qed.

(** The loop of [removeObserver] over the registry of removal triggers. *)
Lemma releaseTrackRemovedListeners_loop (ks : list string) s :
  well_keyed s →
  ∃ s', for_of ks (fun trackId =>
          d <- gets (fun s => removeTrackRemovedEventListeners s !! trackId) ;;
          match d with
          | Some d => Task.run_trackRemovedDisposer d
          | None => ret tt
          end) s = Ret tt s'
    ∧ (∀ k, removeTrackRemovedEventListeners s' !! k
            = if decide (k ∈ ks) then None else removeTrackRemovedEventListeners s !! k)
    ∧ (∀ l, l ∈ listeners s' → l ∈ listeners s)
    ∧ (∀ k d, k ∈ ks → removeTrackRemovedEventListeners s !! k = Some d →
              ¬ installed (td_target d) (td_endEvent d) (td_handler d) s').
Proof.
  revert s. induction ks as [|k ks IH]; intros s Hwk.
  - exists s. split; [done|]. split; [|split; [done|]].
    + intros k. by rewrite decide_False by apply not_elem_of_nil.
    + by intros k d ?%elem_of_nil.
  - cbn [for_of]. unfold bind at 1. unfold bind at 1, gets at 1.
    destruct (removeTrackRemovedEventListeners s !! k) as [d|] eqn:Hk.
    + pose proof (Hwk k d Hk) as Hid.
      rewrite run_trackRemovedDisposer_run.
      match goal with
      | |- context [for_of ks _ ?s1] =>
          assert (well_keyed s1) as Hwk1
            by (by apply (well_keyed_delete (td_trackId d) s));
          destruct (IH s1 Hwk1) as (s' & -> & Hmap & Hsub & Hoff)
      end.
      cbn in Hmap, Hsub, Hoff. exists s'. split; [done|]. split; [|split].
      * intros k'. rewrite Hmap, Hid. destruct (decide (k' = k)) as [->|Hne].
        -- rewrite lookup_delete_eq. rewrite (decide_True (P := k ∈ k :: ks)) by (by left).
           by destruct (decide (k ∈ ks)).
        -- rewrite lookup_delete_ne by done.
           destruct (decide (k' ∈ ks)) as [Hin|Hnin].
           ++ by rewrite decide_True by (by right).
           ++ rewrite decide_False; [done|]. by intros [?|?]%elem_of_cons.
      * intros l Hl%Hsub. by apply list_elem_of_filter in Hl as [_ ?].
      * intros k' d' Hk' Hd'. destruct (decide (k' = k)) as [->|Hne].
        -- assert (d' = d) as -> by congruence.
           unfold installed. rewrite Exists_exists. intros (l & Hl%Hsub & Hsame).
           by apply list_elem_of_filter in Hl as [Hnot _].
        -- apply (Hoff k' d'); [by apply elem_of_cons in Hk' as [?|?]|].
           by rewrite Hid, lookup_delete_ne.
    + unfold ret at 1.
      destruct (IH s Hwk) as (s' & -> & Hmap & Hsub & Hoff).
      exists s'. split; [done|]. split; [|split; [done|]].
      * intros k'. rewrite Hmap. destruct (decide (k' = k)) as [->|Hne].
        -- rewrite (decide_True (P := k ∈ k :: ks)) by (by left).
           by destruct (decide (k ∈ ks)).
        -- destruct (decide (k' ∈ ks)) as [Hin|Hnin].
           ++ by rewrite decide_True by (by right).
           ++ rewrite decide_False; [done|]. by intros [?|?]%elem_of_cons.
      * intros k' d' Hk' Hd'. apply (Hoff k' d'); [|done].
        apply elem_of_cons in Hk' as [->|?]; [congruence|done].
Qed.

Lemma releaseTrackRemovedListeners_run s :
  well_keyed s →
  ∃ s', Task.releaseTrackRemovedListeners s = Ret tt s'
    ∧ removeTrackRemovedEventListeners s' = ∅
    ∧ (∀ l, l ∈ listeners s' → l ∈ listeners s)
    ∧ (∀ k d, removeTrackRemovedEventListeners s !! k = Some d →
              ¬ installed (td_target d) (td_endEvent d) (td_handler d) s')
    ∧ (∀ A (f : State → A), ignores f upd_listeners →
         ignores f upd_removeTrackRemovedEventListeners → f s' = f s).
Proof.
  intros Hwk.
  assert (∀ k d, removeTrackRemovedEventListeners s !! k = Some d →
                 k ∈ (map_to_list (removeTrackRemovedEventListeners s)).*1) as Hkeys.
  { intros k d Hd. apply elem_of_map_to_list in Hd.
    by apply (list_elem_of_fmap_2 fst) in Hd. }
  destruct (releaseTrackRemovedListeners_loop
              (map_to_list (removeTrackRemovedEventListeners s)).*1 s Hwk)
    as (s' & Hrun & Hmap & Hsub & Hoff).
  assert (Task.releaseTrackRemovedListeners s = Ret tt s') as Hrun'
    by (unfold Task.releaseTrackRemovedListeners; unfold bind at 1, gets at 1; done).
  exists s'. split; [done|]. split; [|split; [done|split]].
  - apply map_empty. intros k. rewrite Hmap. case_decide as Hin; [done|].
    destruct (removeTrackRemovedEventListeners s !! k) as [d|] eqn:Hd; [|done].
    exfalso. apply Hin. by eapply Hkeys.
  - intros k d Hd. apply (Hoff k d); [by eapply Hkeys|done].
  - intros A f H1 H2.
    pose proof (releaseTrackRemovedListeners_keeps f H1 H2 s) as Hk.
    by rewrite Hrun' in Hk.
Qed.

Lemma releasePresenceHandlers_frame {A} (f : State -> A) hs s s' :
  ignores f upd_presenceSubscribers → ignores f upd_presenceHandlerSet →
  ignores f upd_trace →
  for_of hs Task.releasePresenceHandler s = Ret tt s' → f s' = f s.
Proof.
  intros H1 H2 H3 Hrun.
  assert (keeps f (for_of hs Task.releasePresenceHandler)) as Hk
    by (apply keeps_for_of; intros h; by apply releasePresenceHandler_keeps).
  specialize (Hk s). by rewrite Hrun in Hk.
Qed.

(** With nothing left to release, [removeObserver] does nothing. *)
Lemma removeObserver_nothing_left s :
  removeTrackAddedEventListener s = false →
  removeTrackRemovedEventListeners s = ∅ →
  presenceHandlerSet s = [] →
  Task.removeObserver s = Ret tt s.
Proof.
  intros Hr Hmap Hset.
  unfold Task.removeObserver, Task.releaseTrackRemovedListeners,
    Task.releasePresenceHandlers.
  unfold bind, gets. rewrite Hr. unfold ret. rewrite Hmap, map_to_list_empty. cbn.
  by rewrite Hset.
Qed.

(** Session teardown releases everything the registries record, once.
    After [removeObserver] the peer's track listener is off, every removal
    trigger recorded in the registry is off its target and the registry is
    empty, and no handler of the task is subscribed to the presence feed;
    a second [removeObserver] changes nothing.  What teardown does not do:
    it leaves tiles, their states, the paused-stream tracker, the timers
    and the per-track lists of diagnostic disposers exactly as they were. *)
Theorem removeObserver_releases_once (s : State) :
  well_keyed s → mirrors s →
  ∃ s', Task.removeObserver s = Ret tt s'
    ∧ removeTrackAddedEventListener s' = false
    ∧ (removeTrackAddedEventListener s = true → peerTrackListener s' = false)
    ∧ removeTrackRemovedEventListeners s' = ∅
    ∧ (∀ k d, removeTrackRemovedEventListeners s !! k = Some d →
              ¬ installed (td_target d) (td_endEvent d) (td_handler d) s')
    ∧ presenceHandlerSet s' = []
    ∧ presenceSubscribers s' = []
    ∧ (tileRegistry s' = tileRegistry s ∧ tileStates s' = tileStates s
       ∧ videosPaused s' = videosPaused s ∧ timers s' = timers s
       ∧ removeVideoTrackEventListeners s' = removeVideoTrackEventListeners s)
    ∧ Task.removeObserver s' = Ret tt s'.
Proof.
  intros Hwk Hm.
  assert (∃ s0, Task.removeObserver s
                = bind Task.releaseTrackRemovedListeners
                    (fun _ => Task.releasePresenceHandlers) s0
            ∧ removeTrackAddedEventListener s0 = false
            ∧ (removeTrackAddedEventListener s = true → peerTrackListener s0 = false)
            ∧ (∀ A (f : State → A), ignores f upd_peerTrackListener →
                 ignores f upd_removeTrackAddedEventListener → f s0 = f s))
    as (s0 & Hsplit & Hr0 & Hp0 & Hf0).
  { unfold Task.removeObserver, Task.releaseTrackAddedListener.
    destruct (removeTrackAddedEventListener s) eqn:Hr.
    - eexists. split; [unfold bind, gets, modify; rewrite Hr; reflexivity|].
      split; [done|]. split; [done|]. intros A f H1 H2. by rewrite H2, H1.
    - exists s. split; [unfold bind, gets, ret; by rewrite Hr|]. done. }
  assert (well_keyed s0) as Hwk0.
  { unfold well_keyed. by rewrite (Hf0 _ removeTrackRemovedEventListeners). }
  destruct (releaseTrackRemovedListeners_run s0 Hwk0)
    as (s1 & Hrun1 & Hmap1 & Hsub1 & Hoff1 & Hf1).
  destruct (releasePresenceHandlers_loop (presenceHandlerSet s1) s1)
    as (s' & Hrun2 & Hsubs & Hset & Htimers & _).
  pose proof (λ A (f : State → A) H1 H2 H3,
                releasePresenceHandlers_frame f _ s1 s' H1 H2 H3 Hrun2) as Hf2.
  assert (Task.removeObserver s = Ret tt s') as Hrun.
  { rewrite Hsplit. unfold bind at 1. rewrite Hrun1.
    unfold Task.releasePresenceHandlers, bind, gets. exact Hrun2. }
  assert (presenceHandlerSet s' = []) as Hset'
    by (rewrite Hset; apply filter_not_in_self).
  assert (removeTrackRemovedEventListeners s' = ∅) as Hmap'
    by (by rewrite (Hf2 _ removeTrackRemovedEventListeners)).
  assert (removeTrackAddedEventListener s' = false) as Hr'.
  { rewrite (Hf2 _ removeTrackAddedEventListener) by done.
    by rewrite (Hf1 _ removeTrackAddedEventListener). }
  exists s'. split; [done|]. split; [done|]. split; [|split; [done|split; [|split;
    [done|split; [|split]]]]].
  - intros Hr. rewrite (Hf2 _ peerTrackListener) by done.
    rewrite (Hf1 _ peerTrackListener) by done. by apply Hp0.
  - intros k d Hd. unfold installed in *.
    rewrite (Hf2 _ listeners) by done. apply (Hoff1 k d).
    by rewrite (Hf0 _ removeTrackRemovedEventListeners).
  - rewrite Hsubs. apply elem_of_nil_inv. intros h [Hnot Hin]%list_elem_of_filter.
    apply Hnot.
    rewrite (Hf1 _ presenceHandlerSet), (Hf0 _ presenceHandlerSet) by done.
    rewrite (Hf1 _ presenceSubscribers), (Hf0 _ presenceSubscribers) in Hin by done.
    by apply Hm.
  - rewrite (Hf2 _ tileRegistry), (Hf2 _ tileStates), (Hf2 _ videosPaused),
      (Hf2 _ timers), (Hf2 _ removeVideoTrackEventListeners) by done.
    rewrite (Hf1 _ tileRegistry), (Hf1 _ tileStates), (Hf1 _ videosPaused),
      (Hf1 _ timers), (Hf1 _ removeVideoTrackEventListeners) by done.
    by rewrite (Hf0 _ tileRegistry), (Hf0 _ tileStates), (Hf0 _ videosPaused),
      (Hf0 _ timers), (Hf0 _ removeVideoTrackEventListeners).
  - by apply removeObserver_nothing_left.
Qed.

Lemma removeObserver_releases_once_witness :
  let s := Scenario.awaiting_presence in
  (well_keyed s ∧ mirrors s)
  ∧ (removeTrackRemovedEventListeners s !! "t1" = Some Scenario.disposer7
     ∧ presenceSubscribers s = [9%nat])
  ∧ ∃ s', Task.removeObserver s = Ret tt s'
      ∧ ¬ installed (OnStream "s1") "removetrack" 7 s'
      ∧ presenceSubscribers s' = []
      ∧ tileRegistry s' = tileRegistry s
      ∧ Task.removeObserver s' = Ret tt s'.
Proof.
  cbn zeta.
  assert (well_keyed Scenario.awaiting_presence) as Hwk.
  { assert (map_Forall (fun k d => td_trackId d = k)
              (removeTrackRemovedEventListeners Scenario.awaiting_presence)) as Hall
      by (apply (bool_decide_unpack _); by vm_compute).
    intros k d Hd. exact (Hall k d Hd). }
  assert (mirrors Scenario.awaiting_presence) as Hm.
  { unfold mirrors.
    change (presenceHandlerSet Scenario.awaiting_presence) with [9%nat].
    by change (presenceSubscribers Scenario.awaiting_presence) with [9%nat]. }
  assert (removeTrackRemovedEventListeners Scenario.awaiting_presence !! "t1"
          = Some Scenario.disposer7) as Hd by (by vm_compute).
  split; [by split|]. split; [split; [exact Hd|by vm_compute]|].
  destruct (removeObserver_releases_once Scenario.awaiting_presence Hwk Hm)
    as (s' & Hrun & _ & _ & _ & Hoff & _ & Hsubs & (Htiles & _) & Hagain).
  exists s'. split; [exact Hrun|]. split; [exact (Hoff "t1" _ Hd)|].
  split; [exact Hsubs|]. split; [exact Htiles|exact Hagain].
Defined.
